(** * WeatherBench, [src/pytorch/util.py]: year windows, dataset views and
      the model factory.

    The module has three functions.  [load_data] turns calendar years into
    offsets on the merged time axis (its inner closure [get_year_idx]) and
    builds the train, validation and test views; [named_network] selects
    a network by name.  [init_torch_device] only talks to the GPU runtime
    and is not modelled.

    Conventions of the embedding.
    - Python integers are [Z].  The sums returned by [np.sum] and [np.min]
      are 64-bit in NumPy; their operands here are timestep counts of one
      time axis and small offsets on it, so they are read on [Z] as well.
    - Chunk sizes are sizes of array blocks, hence [N].
    - Code that can raise returns a [result]; code with effects runs in the
      state-and-exception monad [M]. *)

From Stdlib Require Import ZArith List Lia.
From stdpp Require Import gmap strings list.
Import ListNotations.

Local Open Scope Z_scope.

(** ** Exceptions and the monad *)

Inductive exn : Type :=
| IndexError
| KeyError (key : string)
| TypeError
| ValueError
| AssertionError (msg : string)
| NotImplementedError.

Inductive result (A : Type) : Type :=
| Ok (a : A)
| Raise (e : exn).
Arguments Ok {A} a.
Arguments Raise {A} e.

(** A computation over a state [W]: it returns a value or raises, and in
    both cases leaves a state behind. *)
Definition M (W A : Type) : Type := W -> result A * W.

Definition ret {W A} (a : A) : M W A := fun w => (Ok a, w).

Definition raise {W A} (e : exn) : M W A := fun w => (Raise e, w).

Definition bind {W A B} (m : M W A) (k : A -> M W B) : M W B :=
  fun w =>
    match m w with
    | (Ok a, w') => k a w'
    | (Raise e, w') => (Raise e, w')
    end.

Definition get {W} : M W W := fun w => (Ok w, w).

Definition modify {W} (f : W -> W) : M W unit := fun w => (Ok tt, f w).

Definition lift {W A} (r : result A) : M W A := fun w => (r, w).

Declare Scope py_scope.
Delimit Scope py_scope with py.
Notation "'let*' x ':=' m 'in' k" := (bind m (fun x => k))
  (at level 10, x pattern, m at level 100, k at level 200) : py_scope.

(** ** Python and NumPy primitives used by the resolver *)

(** [enumerate(l)], counting from [i]. *)
Fixpoint enumerate_from {A} (i : Z) (l : list A) : list (Z * A) :=
  match l with
  | [] => []
  | a :: l' => (i, a) :: enumerate_from (i + 1) l'
  end.

Definition enumerate {A} (l : list A) : list (Z * A) := enumerate_from 0 l.

(** The slice [t[:k]].  A non-negative [k] keeps the first [k] items (all
    of them when [k] exceeds the length); a negative [k] counts from the
    end and drops the last [-k] items. *)
Definition py_slice_to {A} (k : Z) (t : list A) : list A :=
  if k <? 0
  then firstn (Z.to_nat (Z.of_nat (length t) + k)) t
  else firstn (Z.to_nat k) t.

(** [np.sum] of a sequence of integers; the empty sum is 0. *)
Definition np_sum (t : list Z) : Z := fold_right Z.add 0 t.

(** [np.min] of a sequence of integers; NumPy raises [ValueError] on an
    empty one. *)
Definition np_min (t : list Z) : result Z :=
  match t with
  | [] => Raise ValueError
  | a :: t' => Ok (fold_left Z.min t' a)
  end.

(** The subscript [l[i]] for a constant index [i >= 0]. *)
Definition subscript {A} (l : list A) (i : nat) : result A :=
  match l !! i with
  | Some a => Ok a
  | None => Raise IndexError
  end.

(** ** The temporal index resolver *)

(** What the closure [get_year_idx] sees of the frame of [load_data]: the
    chunk sizes along [time] of the merged table [x], and the arguments
    [past_times] and [lead_time].  The epoch 1979 is a literal in the
    source. *)
Record cells : Type := Cells {
  x_chunks_time : list N;
  past_times : list Z;
  lead_time : Z
}.

(** First statement of [get_year_idx]:
    [[np.sum(x.chunks['time'][:(int(yr)-1979+i)]) for i,yr in enumerate(yrs)]]. *)
Definition year_sums (chunks : list N) (yrs : list Z) : list Z :=
  map (fun '(i, yr) => np_sum (py_slice_to (yr - 1979 + i) (map Z.of_N chunks)))
      (enumerate yrs).

(** [get_year_idx(yrs)].  It reads the frame and writes nothing. *)
Definition get_year_idx (yrs : list Z) : M cells (Z * Z) :=
  (let* c := get in
   let idx := year_sums (x_chunks_time c) yrs in
   let* i0 := lift (subscript idx 0) in
   let* m := lift (np_min (past_times c ++ [0])) in
   let* i1 := lift (subscript idx 1) in
   ret (i0 - m, i1 - lead_time c))%py.

(** ** Reading of the resolver in the words of the specification *)

(** Size of the chunk at position [i] of the year-chunk index (position
    [i] is the year [1979 + i]); positions past the end hold nothing. *)
Definition chunk_at (chunks : list N) (i : nat) : Z :=
  Z.of_N (nth i chunks 0%N).

(** Sum of the chunk sizes at positions [0 .. n-1]. *)
Fixpoint cumulative (chunks : list N) (n : nat) : Z :=
  match n with
  | O => 0
  | S n' => cumulative chunks n' + chunk_at chunks n'
  end.

(** Length of the merged time axis. *)
Definition axis_length (chunks : list N) : Z :=
  cumulative chunks (length chunks).

(** The minimum of the past-time offsets and 0. *)
Definition min_with_zero (past : list Z) : Z := fold_right Z.min 0 past.

(** A year is in the indexed range when it has a chunk of its own. *)
Definition year_indexed (chunks : list N) (yr : Z) : Prop :=
  1979 <= yr < 1979 + Z.of_nat (length chunks).

(** ** The dataset factory *)

(** The outside world of [load_data]: what was printed, which files the
    dataset views opened (in order), and the file system as seen through
    [xr.open_mfdataset] and [xr.merge]: for the glob patterns of the
    catalog, the chunk sizes along [time] of the merged table, or the
    exception of the scan. *)
Record world : Type := World {
  stdout : list string;
  opened : list string;
  merged_time_chunks : list string -> result (list N)
}.

Definition print (line : string) : M world unit :=
  modify (fun w => World (stdout w ++ [line]) (opened w) (merged_time_chunks w)).

(** [xr.merge([xr.open_mfdataset(p, combine='by_coords') for p in patterns],
    fill_value=0).chunks['time']] *)
Definition xr_merge_chunks (patterns : list string) : M world (list N) :=
  fun w => (merged_time_chunks w patterns, w).

(** A call of the closure from the frame [c] of [load_data]. *)
Definition call {A} (c : cells) (m : M cells A) : M world A :=
  fun w => (fst (m c), w).

(** An opened array: the [n]-th physical open of the run. *)
Inductive handle : Type := Opened (n : nat).

(** The [filedir] and [leveldir] arguments of a view: a path, or an array
    that is already open. *)
Inductive source : Type :=
| Path (p : string)
| Loaded (h : handle).

Inductive dtype : Type := np_float32 | np_float64.

Section Views.

(** The specification of one variable of a catalog is opaque to this
    module; a catalog is a Python dict, kept in insertion order. *)
Context {VarSpec : Type}.

Record view : Type := View {
  data : handle;
  level_names : handle;
  view_var_dict : list (string * VarSpec);
  view_lead_time : Z;
  view_start : Z;
  view_end : Z;
  randomize_order : bool;
  view_target_var_dict : list (string * VarSpec);
  view_mmap_mode : option string;
  view_dtype : dtype;
  view_past_times : list Z;
  view_past_times_own_axis : bool;
  view_verbose : bool
}.

(** Modelled from the spec: how a view takes its [filedir] or [leveldir]
    argument.  The class [Dataset_memmap] is defined in another module,
    [src/pytorch/Dataset.py].  A path is opened, which adds one entry to
    the log of opened files; an array that is already open is kept and
    nothing is opened. *)
Definition resolve (s : source) : M world handle :=
  match s with
  | Path p =>
      fun w => (Ok (Opened (length (opened w))),
                World (stdout w) (opened w ++ [p]) (merged_time_chunks w))
  | Loaded h => ret h
  end.

(** Modelled from the spec: the constructor of [Dataset_memmap], defined
    in [src/pytorch/Dataset.py].  It resolves the backing array, then the
    level names, and stores the other arguments as they come. *)
Definition Dataset_memmap (filedir leveldir : source)
    (var_dict : list (string * VarSpec)) (lead_time : Z) (start end_ : Z)
    (randomize_order : bool) (target_var_dict : list (string * VarSpec))
    (mmap_mode : option string) (dt : dtype) (past_times : list Z)
    (past_times_own_axis verbose : bool) : M world view :=
  (let* d := resolve filedir in
   let* l := resolve leveldir in
   ret (View d l var_dict lead_time start end_ randomize_order
             target_var_dict mmap_mode dt past_times past_times_own_axis
             verbose))%py.

(** [mmap_mode=='None' or mmap_mode is None] *)
Definition is_none_mode (mmap_mode : option string) : bool :=
  match mmap_mode with
  | Some s => String.eqb s "None"
  | None => true
  end.

Definition warning_line : string :=
  "WARNING: will load entire dataset into memory!".

(** [load_data].  The optional arguments are passed explicitly. *)
Definition load_data (var_dict : list (string * VarSpec)) (lead_time : Z)
    (train_years validation_years test_years : list Z)
    (target_var_dict : list (string * VarSpec)) (datadir : string)
    (mmap_mode : option string) (past_times : list Z)
    (past_times_own_axis verbose : bool) : M world (view * view * view) :=
  (let filedir := datadir +:+ "5_625deg_all_zscored.npy" in
   let leveldir := datadir +:+ "5_625deg_all_level_names.npy" in
   let* mmap_mode :=
     (if is_none_mode mmap_mode
      then let* _ := print warning_line in
           let* _ := print ("filedir: " +:+ filedir) in
           ret None
      else ret mmap_mode) in
   let* chunks :=
     xr_merge_chunks
       (map (fun var => datadir +:+ "/" +:+ var +:+ "/*.nc")
            (map fst var_dict)) in
   let frame := Cells chunks past_times lead_time in
   let* idx := call frame (get_year_idx train_years) in
   let '(start, end_) := idx in
   let* dg_train :=
     Dataset_memmap (Path filedir) (Path leveldir) var_dict lead_time
       start end_ true target_var_dict mmap_mode np_float32 past_times
       past_times_own_axis verbose in
   let* idx := call frame (get_year_idx validation_years) in
   let '(start, end_) := idx in
   let* dg_validation :=
     Dataset_memmap (Loaded (data dg_train)) (Loaded (level_names dg_train))
       var_dict lead_time start end_ false target_var_dict mmap_mode
       np_float32 past_times past_times_own_axis verbose in
   let* idx := call frame (get_year_idx test_years) in
   let '(start, end_) := idx in
   let* dg_test :=
     Dataset_memmap (Loaded (data dg_train)) (Loaded (level_names dg_train))
       var_dict lead_time start end_ false target_var_dict mmap_mode
       np_float32 past_times past_times_own_axis verbose in
   ret (dg_train, dg_validation, dg_test))%py.

End Views.

Arguments view : clear implicits.

(** ** The model factory *)

(** A value of the free-form keyword configuration: an integer or a list
    of integers. *)
Inductive value : Type :=
| VInt (z : Z)
| VList (l : list Z).

(** [torch.nn.Conv2d(in_channels, out_channels, kernel_size, stride, padding)] *)
Record conv2d : Type := Conv2d {
  conv_in_channels : Z;
  conv_out_channels : Z;
  conv_kernel_size : Z * Z;
  conv_stride : Z;
  conv_padding : Z
}.

(** The networks the factory can build, each with the arguments the
    factory passes to its constructor.  The constructors themselves live in
    other modules ([cnn], [unet], [resnet], [convlstm], [torchvision]); what
    they do with their arguments is outside this module.  The fixed
    arguments ([activation=elu], [mode='circular'], [block=CircBlock],
    [padding_mode='circular'], [pretrained=False]) are left out. *)
Inductive network : Type :=
| SimpleCNN (filters kernels : list Z) (channels : Z)
| CircUNet (in_channels : Z) (filters kernels : list (list Z))
           (pooling out_channels : Z)
| fcn_resnet50 (backbone_conv1 classifier_last : option conv2d)
| FCNResNet (in_channels out_channels : Z) (kwargs : gmap string value)
| CircConvLSTM (input_dim : Z) (num_layers : Z) (kernel_size : list (Z * Z))
               (hidden_dim : value).

(** How [model_forward] reads the output of [model.forward]: as it is, its
    ['out'] entry, or the hidden state of the last layer. *)
Inductive forward : Type :=
| forward_plain
| forward_out_entry
| forward_last_hidden.

(** The objects constructed during a call, in order. *)
Inductive object : Type :=
| Net (n : network)
| Layer (c : conv2d).

Definition construct (o : object) : M (list object) unit :=
  modify (fun built => built ++ [o]).

(** [kwargs[key]] *)
Definition kwargs_get (kwargs : gmap string value) (key : string) : result value :=
  match kwargs !! key with
  | Some v => Ok v
  | None => Raise (KeyError key)
  end.

(** [len(v)] and iteration over [v]: defined on lists only. *)
Definition as_list (v : value) : result (list Z) :=
  match v with
  | VList l => Ok l
  | VInt _ => Raise TypeError
  end.

(** [v[-1]] *)
Definition subscript_last (v : value) : result Z :=
  match v with
  | VList l =>
      match last l with
      | Some z => Ok z
      | None => Raise IndexError
      end
  | VInt _ => Raise TypeError
  end.

(** [assert cond, msg] *)
Definition assert_ {W} (cond : bool) (msg : string) : M W unit :=
  if cond then ret tt else raise (AssertionError msg).

(** A keyword given both by name and through [**kwargs] is a [TypeError]
    at the call. *)
Definition no_clash (names : list string) (kwargs : gmap string value) : bool :=
  forallb (fun k => match kwargs !! k with Some _ => false | None => true end)
          names.

(** [named_network(model_name, n_input_channels, n_output_channels, **kwargs)] *)
Definition named_network (model_name : string)
    (n_input_channels n_output_channels : Z) (kwargs : gmap string value)
    : M (list object) (network * forward) :=
  (if String.eqb model_name "cnnbn" then
     let model := SimpleCNN [64; 64; 64; 64; n_output_channels]
                            [5; 5; 5; 5; 5] n_input_channels in
     let* _ := construct (Net model) in
     ret (model, forward_plain)
   else if String.eqb model_name "Unetbn" then
     let model := CircUNet n_input_channels [[32]; [32]; [32]; [32]]
                           [[5]; [5]; [5]; [5]] 2 n_output_channels in
     let* _ := construct (Net model) in
     ret (model, forward_plain)
   else if String.eqb model_name "tvfcnResnet50" then
     let k := 3 in
     let* _ := construct (Net (fcn_resnet50 None None)) in
     let conv1 := Conv2d n_input_channels 64 (k, k) 1 ((k + 1) / 2) in
     let* _ := construct (Layer conv1) in
     let last := Conv2d 512 n_output_channels (k, k) 1 ((k + 1) / 2) in
     let* _ := construct (Layer last) in
     ret (fcn_resnet50 (Some conv1) (Some last), forward_out_entry)
   else if String.eqb model_name "simpleResnet" then
     if no_clash ["in_channels"; "out_channels"; "block"; "padding_mode"]
                 kwargs
     then
       let model := FCNResNet n_input_channels n_output_channels kwargs in
       let* _ := construct (Net model) in
       ret (model, forward_plain)
     else raise TypeError
   else if String.eqb model_name "ConvLSTM" then
     let* ks := lift (kwargs_get kwargs "kernel_sizes") in
     let* ks_len := lift (as_list ks) in
     let num_layers := Z.of_nat (length ks_len) in
     let* ks := lift (kwargs_get kwargs "kernel_sizes") in
     let* ks_items := lift (as_list ks) in
     let kernel_size := map (fun i => (i, i)) ks_items in
     let* hidden_dim := lift (kwargs_get kwargs "filters") in
     let* final := lift (subscript_last hidden_dim) in
     let* _ := assert_ (final =? n_output_channels)
                 "final hidden dim is overall output dim of network!" in
     let model := CircConvLSTM n_input_channels num_layers kernel_size
                               hidden_dim in
     let* _ := construct (Net model) in
     ret (model, forward_last_hidden)
   else raise NotImplementedError)%py.

(** The names with a branch of their own. *)
Definition supported : list string :=
  ["cnnbn"; "Unetbn"; "tvfcnResnet50"; "simpleResnet"; "ConvLSTM"].

(** The channel counts a network was built for, read off the arguments
    of its constructor: the input channels, and the output channels (for
    [SimpleCNN] the last filter count, for the torchvision network the
    replaced first and last layers, for [CircConvLSTM] the last hidden
    size). *)
Definition network_in_channels (n : network) : option Z :=
  match n with
  | SimpleCNN _ _ channels => Some channels
  | CircUNet in_channels _ _ _ _ => Some in_channels
  | fcn_resnet50 conv1 _ => option_map conv_in_channels conv1
  | FCNResNet in_channels _ _ => Some in_channels
  | CircConvLSTM input_dim _ _ _ => Some input_dim
  end.

Definition network_out_channels (n : network) : option Z :=
  match n with
  | SimpleCNN filters _ _ => last filters
  | CircUNet _ _ _ _ out_channels => Some out_channels
  | fcn_resnet50 _ classifier_last =>
      option_map conv_out_channels classifier_last
  | FCNResNet _ out_channels _ => Some out_channels
  | CircConvLSTM _ _ _ (VList hidden) => last hidden
  | CircConvLSTM _ _ _ (VInt _) => None
  end.

(** ** The device initializer *)

Inductive device : Type := cuda | cpu.

(** The part of the torch runtime [init_torch_device] touches: whether
    CUDA is there, the process-wide default tensor type, and what was
    printed. *)
Record torch : Type := Torch {
  cuda_is_available : bool;
  default_tensor_type : string;
  torch_stdout : list string
}.

Definition torch_print (line : string) : M torch unit :=
  modify (fun t => Torch (cuda_is_available t) (default_tensor_type t)
                         (torch_stdout t ++ [line])).

(** [torch.set_default_tensor_type(name)] *)
Definition set_default_tensor_type (name : string) : M torch unit :=
  modify (fun t => Torch (cuda_is_available t) name (torch_stdout t)).

(** [init_torch_device()] *)
Definition init_torch_device : M torch device :=
  (let* t := get in
   if cuda_is_available t then
     let* _ := torch_print "using CUDA !" in
     let device := cuda in
     let* _ := set_default_tensor_type "torch.cuda.FloatTensor" in
     ret device
   else
     let* _ := torch_print "CUDA not available" in
     let device := cpu in
     let* _ := set_default_tensor_type "torch.FloatTensor" in
     ret device)%py.

(** The tensor type that lives on a device. *)
Definition float_tensor_of (d : device) : string :=
  match d with
  | cuda => "torch.cuda.FloatTensor"
  | cpu => "torch.FloatTensor"
  end.

(** Membership of a given year in the indexed range of given chunks. *)
Ltac indexed := unfold year_indexed; simpl; lia.

(** Case analysis on the name tests of [named_network], in the order of
    the source. *)
Ltac by_name name :=
  unfold named_network;
  repeat match goal with
    | |- context [String.eqb name ?s] =>
        destruct (String.eqb_spec name s); [subst name|]; cbv iota
    end.

(** Evaluation of the monadic steps of the factory. *)
Ltac factory_steps :=
  unfold bind, lift, ret, raise, construct, modify, assert_, kwargs_get,
    as_list, subscript_last; simpl.

(** Case analysis on what the factory reads: the test of the assertion
    first, then the lookups and the shapes of the values. *)
Ltac factory_cases :=
  repeat first
    [ match goal with
      | |- context [Z.eqb ?a ?b] => destruct (Z.eqb_spec a b); simpl
      end
    | match goal with
      | |- context [match ?x with _ => _ end] => destruct x; simpl
      end ].

(** * Properties *)

(** ** Sums, slices and minima *)

Lemma np_sum_app (a b : list Z) : np_sum (a ++ b) = np_sum a + np_sum b.
Proof.
  induction a as [|x a IH]; simpl; [reflexivity|]. rewrite IH. lia.
Qed.

Lemma chunk_at_nonneg (chunks : list N) (i : nat) : 0 <= chunk_at chunks i.
Proof. unfold chunk_at. lia. Qed.

Lemma chunk_at_overflow (chunks : list N) (i : nat) :
  (length chunks <= i)%nat -> chunk_at chunks i = 0.
Proof.
  intros Hi. unfold chunk_at. rewrite nth_overflow by exact Hi. reflexivity.
Qed.

(** The sum of the first [n] chunks, as NumPy computes it on the slice, is
    the cumulative sum up to position [n]. *)
Lemma np_sum_firstn (chunks : list N) (n : nat) :
  np_sum (firstn n (map Z.of_N chunks)) = cumulative chunks n.
Proof.
  induction n as [|n IH]; [reflexivity|].
  simpl cumulative. rewrite <- IH.
  destruct (Nat.lt_ge_cases n (length chunks)) as [Hlt|Hge].
  - assert (Hn : map Z.of_N chunks !! n = Some (chunk_at chunks n)).
    { unfold chunk_at. rewrite list_lookup_fmap.
      destruct (chunks !! n) as [x|] eqn:Hx.
      - simpl. f_equal. f_equal. symmetry. apply nth_lookup_Some with (d := 0%N) in Hx. exact Hx.
      - apply lookup_ge_None in Hx. lia. }
    rewrite (take_S_r _ _ _ Hn), np_sum_app. simpl. lia.
  - rewrite chunk_at_overflow by exact Hge.
    rewrite !firstn_all2 by (rewrite length_map; lia). lia.
Qed.

Lemma cumulative_nonneg (chunks : list N) (n : nat) : 0 <= cumulative chunks n.
Proof.
  induction n as [|n IH]; simpl; [lia|].
  pose proof (chunk_at_nonneg chunks n). lia.
Qed.

Lemma cumulative_mono (chunks : list N) (n m : nat) :
  (n <= m)%nat -> cumulative chunks n <= cumulative chunks m.
Proof.
  induction 1 as [|m Hle IH]; [lia|].
  simpl. pose proof (chunk_at_nonneg chunks m). lia.
Qed.

Lemma cumulative_overflow (chunks : list N) (n : nat) :
  (length chunks <= n)%nat -> cumulative chunks n = axis_length chunks.
Proof.
  unfold axis_length. induction 1 as [|m Hle IH]; [reflexivity|].
  simpl. rewrite chunk_at_overflow by exact Hle. lia.
Qed.

Lemma cumulative_le_axis (chunks : list N) (n : nat) :
  cumulative chunks n <= axis_length chunks.
Proof.
  destruct (Nat.le_ge_cases n (length chunks)) as [H|H].
  - apply cumulative_mono, H.
  - rewrite cumulative_overflow by exact H. lia.
Qed.

Lemma py_slice_to_nonneg {A} (k : Z) (t : list A) :
  0 <= k -> py_slice_to k t = firstn (Z.to_nat k) t.
Proof.
  intros Hk. unfold py_slice_to.
  destruct (k <? 0) eqn:E; [apply Z.ltb_lt in E; lia | reflexivity].
Qed.

Lemma fold_left_min_snoc (l : list Z) (a : Z) :
  fold_left Z.min (l ++ [0]) a = Z.min a (min_with_zero l).
Proof.
  revert a. induction l as [|b l IH]; intros a; simpl; [reflexivity|].
  rewrite IH. lia.
Qed.

Lemma np_min_with_zero (past : list Z) :
  np_min (past ++ [0]) = Ok (min_with_zero past).
Proof.
  destruct past as [|a l]; simpl; [reflexivity|].
  rewrite fold_left_min_snoc. reflexivity.
Qed.

Lemma min_with_zero_nonpos (past : list Z) : min_with_zero past <= 0.
Proof. induction past as [|a l IH]; simpl; lia. Qed.

Lemma min_with_zero_le (past : list Z) (p : Z) :
  In p past -> min_with_zero past <= p.
Proof.
  induction past as [|a l IH]; simpl; [tauto|].
  intros [->|H]; [lia|]. specialize (IH H). lia.
Qed.

(** ** The resolver, evaluated *)

(** On a two-element range the resolver returns, whatever the years. *)
Lemma get_year_idx_pair (c : cells) (ys ye : Z) :
  get_year_idx [ys; ye] c =
  (Ok (np_sum (py_slice_to (ys - 1979) (map Z.of_N (x_chunks_time c)))
         - min_with_zero (past_times c),
       np_sum (py_slice_to (ye - 1979 + 1) (map Z.of_N (x_chunks_time c)))
         - lead_time c),
   c).
Proof.
  unfold get_year_idx, bind, get, lift, ret. simpl.
  rewrite np_min_with_zero. rewrite Z.add_0_r. reflexivity.
Qed.

(** The resolver never writes to the frame it reads. *)
Lemma get_year_idx_frame (yrs : list Z) (c : cells) :
  snd (get_year_idx yrs c) = c.
Proof.
  unfold get_year_idx, bind, get, lift, ret. simpl.
  destruct (subscript _ 0); [|reflexivity].
  destruct (np_min _); [|reflexivity].
  destruct (subscript _ 1); reflexivity.
Qed.

(** It returns a pair as soon as the range has two elements. *)
Lemma get_year_idx_total (yrs : list Z) (c : cells) :
  (2 <= length yrs)%nat ->
  exists s e, get_year_idx yrs c = (Ok (s, e), c).
Proof.
  intros Hlen. destruct yrs as [|ys [|ye rest]]; simpl in Hlen; try lia.
  unfold get_year_idx, bind, get, lift, ret. simpl.
  rewrite np_min_with_zero. eauto.
Qed.

Lemma year_sums_pair (chunks : list N) (ys ye : Z) :
  year_indexed chunks ys -> year_indexed chunks ye ->
  year_sums chunks [ys; ye] =
  [cumulative chunks (Z.to_nat (ys - 1979));
   cumulative chunks (S (Z.to_nat (ye - 1979)))].
Proof.
  unfold year_indexed. intros Hs He.
  unfold year_sums, enumerate. cbn [enumerate_from map].
  rewrite !py_slice_to_nonneg by lia. rewrite !np_sum_firstn.
  repeat f_equal; lia.
Qed.

Lemma get_year_idx_indexed (c : cells) (ys ye : Z) :
  year_indexed (x_chunks_time c) ys -> year_indexed (x_chunks_time c) ye ->
  get_year_idx [ys; ye] c =
  (Ok (cumulative (x_chunks_time c) (Z.to_nat (ys - 1979))
         - min_with_zero (past_times c),
       cumulative (x_chunks_time c) (S (Z.to_nat (ye - 1979)))
         - lead_time c),
   c).
Proof.
  unfold year_indexed. intros Hs He. rewrite get_year_idx_pair.
  rewrite !py_slice_to_nonneg by lia. rewrite !np_sum_firstn.
  repeat f_equal; lia.
Qed.

(** The end of a range that stops at year [b] and the start of a range
    that begins at year [b + 1] are cut at the same place of the axis. *)
Lemma adjacent_cut (c : cells) (b : Z) :
  0 <= lead_time c ->
  np_sum (py_slice_to (b - 1979 + 1) (map Z.of_N (x_chunks_time c)))
    - lead_time c
  <= np_sum (py_slice_to (b + 1 - 1979) (map Z.of_N (x_chunks_time c)))
    - min_with_zero (past_times c).
Proof.
  intros Hlead. replace (b + 1 - 1979) with (b - 1979 + 1) by lia.
  pose proof (min_with_zero_nonpos (past_times c)). lia.
Qed.

(** X16.  Two ranges with a gap between them stay in order when the first
    one ends on an indexed year and the lead time is non-negative. *)
Lemma separated_windows_ordered (c : cells) (a b b' d : Z) :
  year_indexed (x_chunks_time c) b -> b < b' -> 0 <= lead_time c ->
  exists s1 e1 s2 e2,
    get_year_idx [a; b] c = (Ok (s1, e1), c)
    /\ get_year_idx [b'; d] c = (Ok (s2, e2), c)
    /\ e1 <= s2.
Proof.
  unfold year_indexed. intros Hb Hlt Hlead. eexists _, _, _, _.
  split; [apply get_year_idx_pair|]. split; [apply get_year_idx_pair|].
  rewrite !py_slice_to_nonneg by lia. rewrite !np_sum_firstn.
  pose proof (min_with_zero_nonpos (past_times c)).
  pose proof (cumulative_mono (x_chunks_time c)
                (Z.to_nat (b - 1979 + 1)) (Z.to_nat (b' - 1979))).
  lia.
Qed.

(** The slice counts from the end on a negative bound, so years before
    1979 are not rejected: they select chunks from the tail of the axis. *)
Example slice_negative_bound : py_slice_to (-1) [10; 20; 30] = [10; 20].
Proof. reflexivity. Qed.

Example year_before_epoch :
  fst (get_year_idx [1978; 1978] (Cells [10; 20; 30]%N [] 0)) = Ok (30, 0).
Proof. reflexivity. Qed.

Example year_after_index :
  fst (get_year_idx [1985; 1985] (Cells [10; 20; 30]%N [] 0)) = Ok (60, 60).
Proof. reflexivity. Qed.

(** A range with a single year has no [idx[1]]. *)
Example single_element_range :
  fst (get_year_idx [1979] (Cells [10; 20; 30]%N [] 0)) = Raise IndexError.
Proof. reflexivity. Qed.

(** ** The claims on the resolver *)

(** C1.  For a two-element range of indexed years the sums computed before
    the margins are the cumulative chunk sizes at positions
    [0 .. yr_start - 1979 - 1] for the start and [0 .. yr_end - 1979] for
    the end, the returned pair is these sums less the margins, and the end
    boundary of a year lies one chunk, the year's own, after its start
    boundary. *)
Theorem year_idx_cumulative_sums (c : cells) (ys ye : Z) :
  year_indexed (x_chunks_time c) ys ->
  year_indexed (x_chunks_time c) ye ->
  let chunks := x_chunks_time c in
  let n_start := Z.to_nat (ys - 1979) in
  let n_end := Z.to_nat (ye - 1979) in
  year_sums chunks [ys; ye]
    = [cumulative chunks n_start; cumulative chunks (S n_end)]
  /\ get_year_idx [ys; ye] c
    = (Ok (cumulative chunks n_start - min_with_zero (past_times c),
           cumulative chunks (S n_end) - lead_time c), c)
  /\ cumulative chunks (S n_end)
    = cumulative chunks n_end + chunk_at chunks n_end.
Proof.
  intros Hs He chunks n_start n_end. split; [|split].
  - apply year_sums_pair; assumption.
  - apply get_year_idx_indexed; assumption.
  - reflexivity.
Qed.

Lemma year_idx_cumulative_sums_witness :
  let c := Cells [8760; 8784; 8760]%N [-2; -1; 0] 6 in
  year_indexed (x_chunks_time c) 1979 /\
  year_indexed (x_chunks_time c) 1980 /\
  year_sums (x_chunks_time c) [1979; 1980] = [0; 17544] /\
  get_year_idx [1979; 1980] c = (Ok (2, 17538), c).
Proof.
  intros c.
  assert (Hs : year_indexed (x_chunks_time c) 1979) by indexed.
  assert (He : year_indexed (x_chunks_time c) 1980) by indexed.
  destruct (year_idx_cumulative_sums c 1979 1980 Hs He) as (H1 & H2 & _).
  split; [exact Hs|]. split; [exact He|].
  split; [rewrite H1 | rewrite H2]; reflexivity.
Defined.

(** C2.  With non-positive past-time offsets, a non-negative lead time and
    indexed years, the window starts at the start sum less the minimum of
    the offsets and 0 and ends at the end sum less the lead time; every
    sample index [i] of the window then has [i + p], for each offset [p],
    and [i + lead_time] inside [[0, axis length)]. *)
Theorem window_offsets_in_bounds (c : cells) (ys ye : Z) :
  Forall (fun p => p <= 0) (past_times c) ->
  0 <= lead_time c ->
  year_indexed (x_chunks_time c) ys ->
  year_indexed (x_chunks_time c) ye ->
  exists idx_start idx_end,
    get_year_idx [ys; ye] c = (Ok (idx_start, idx_end), c)
    /\ idx_start = cumulative (x_chunks_time c) (Z.to_nat (ys - 1979))
                   - min_with_zero (past_times c)
    /\ idx_end = cumulative (x_chunks_time c) (S (Z.to_nat (ye - 1979)))
                 - lead_time c
    /\ forall i, idx_start <= i < idx_end ->
         (forall p, In p (past_times c) ->
            0 <= i + p < axis_length (x_chunks_time c))
         /\ 0 <= i + lead_time c < axis_length (x_chunks_time c).
Proof.
  intros Hpast Hlead Hs He.
  eexists _, _. split; [apply get_year_idx_indexed; assumption|].
  split; [reflexivity|]. split; [reflexivity|].
  intros i [Hlo Hhi].
  pose proof (cumulative_nonneg (x_chunks_time c) (Z.to_nat (ys - 1979))).
  pose proof (cumulative_le_axis (x_chunks_time c) (S (Z.to_nat (ye - 1979)))).
  pose proof (min_with_zero_nonpos (past_times c)).
  split; [|lia].
  intros p Hp.
  pose proof (min_with_zero_le _ _ Hp).
  pose proof (proj1 (List.Forall_forall _ _) Hpast p Hp) as Hp0.
  simpl in Hp0. lia.
Qed.

Lemma window_offsets_in_bounds_witness :
  let c := Cells [8760; 8784; 8760]%N [-2; -1; 0] 6 in
  Forall (fun p => p <= 0) (past_times c) /\
  0 <= lead_time c /\
  year_indexed (x_chunks_time c) 1979 /\
  year_indexed (x_chunks_time c) 1979 /\
  exists idx_start idx_end,
    get_year_idx [1979; 1979] c = (Ok (idx_start, idx_end), c)
    /\ forall i, idx_start <= i < idx_end ->
         (forall p, In p (past_times c) ->
            0 <= i + p < axis_length (x_chunks_time c))
         /\ 0 <= i + lead_time c < axis_length (x_chunks_time c).
Proof.
  intros c.
  assert (Hpast : Forall (fun p => p <= 0) (past_times c)).
  { simpl. repeat constructor; lia. }
  assert (Hlead : 0 <= lead_time c) by (simpl; lia).
  assert (Hs : year_indexed (x_chunks_time c) 1979) by indexed.
  destruct (window_offsets_in_bounds c 1979 1979 Hpast Hlead Hs Hs)
    as (s & e & Hrun & _ & _ & Hin).
  split; [exact Hpast|]. split; [exact Hlead|].
  split; [exact Hs|]. split; [exact Hs|].
  exists s, e. split; assumption.
Defined.

(** C3, as the code has it.  For a single indexed year [Y] the window has
    length [c_Y - lead_time - runway], where the runway, minus the minimum
    of the past-time offsets and 0, is taken off for every year, the first
    of the index and the later ones alike. *)
Theorem single_year_window_length (c : cells) (Y : Z) :
  year_indexed (x_chunks_time c) Y ->
  exists idx_start idx_end,
    get_year_idx [Y; Y] c = (Ok (idx_start, idx_end), c)
    /\ idx_end - idx_start
       = chunk_at (x_chunks_time c) (Z.to_nat (Y - 1979)) - lead_time c
         - (- min_with_zero (past_times c)).
Proof.
  intros HY. eexists _, _.
  split; [apply get_year_idx_indexed; assumption|].
  simpl. lia.
Qed.

Lemma single_year_window_length_witness :
  let c := Cells [10; 10]%N [-2] 1 in
  year_indexed (x_chunks_time c) 1980 /\
  exists idx_start idx_end,
    get_year_idx [1980; 1980] c = (Ok (idx_start, idx_end), c)
    /\ idx_end - idx_start
       = chunk_at (x_chunks_time c) (Z.to_nat (1980 - 1979)) - lead_time c
         - (- min_with_zero (past_times c)).
Proof.
  intros c.
  assert (HY : year_indexed (x_chunks_time c) 1980) by indexed.
  split; [exact HY|]. exact (single_year_window_length c 1980 HY).
Defined.

(** C3, as the claim has it, fails: with chunks [[10, 10]], past times
    [[-2]] and lead time 1, the window of 1980, a later year, is
    [(12, 19)]; its length 7 is not [c_1980 - lead_time = 9], the runway
    of 2 is taken off there too. *)
Lemma later_window_without_runway_fails :
  get_year_idx [1980; 1980] (Cells [10; 10]%N [-2] 1)
    = (Ok (12, 19), Cells [10; 10]%N [-2] 1)
  /\ 19 - 12 <> chunk_at [10; 10]%N 1 - 1.
Proof. split; [reflexivity | discriminate]. Qed.

(** C4.  Two adjacent ranges, the second starting the year after the first
    one ends, resolved on the same axis with a non-negative lead time: the
    first window ends where the second starts or before it, and the two
    windows share no index.  This holds for any past-time offsets, hence
    for non-positive ones. *)
Theorem adjacent_windows_disjoint (c : cells) (a b d : Z) :
  0 <= lead_time c ->
  exists s1 e1 s2 e2,
    get_year_idx [a; b] c = (Ok (s1, e1), c)
    /\ get_year_idx [b + 1; d] c = (Ok (s2, e2), c)
    /\ e1 <= s2
    /\ forall i, ~ (s1 <= i < e1 /\ s2 <= i < e2).
Proof.
  intros Hlead. eexists _, _, _, _.
  split; [apply get_year_idx_pair|]. split; [apply get_year_idx_pair|].
  pose proof (adjacent_cut c b Hlead) as Hcut.
  split; [exact Hcut|]. intros i. lia.
Qed.

Lemma adjacent_windows_disjoint_witness :
  let c := Cells [8760; 8784; 8760]%N [-2; -1; 0] 6 in
  0 <= lead_time c /\
  exists s1 e1 s2 e2,
    get_year_idx [1979; 1980] c = (Ok (s1, e1), c)
    /\ get_year_idx [1980 + 1; 1981] c = (Ok (s2, e2), c)
    /\ e1 <= s2
    /\ forall i, ~ (s1 <= i < e1 /\ s2 <= i < e2).
Proof.
  intros c.
  assert (Hlead : 0 <= lead_time c) by (simpl; lia).
  split; [exact Hlead|]. exact (adjacent_windows_disjoint c 1979 1980 1981 Hlead).
Defined.

(** C8.  Two calls of the resolver with the same arguments over the same
    frame return the same pair: the first call leaves the frame as it
    found it, so the second one reads the same chunk sizes, past times and
    lead time. *)
Theorem resolver_deterministic (yrs : list Z) (c : cells) :
  snd (get_year_idx yrs c) = c
  /\ fst (get_year_idx yrs (snd (get_year_idx yrs c)))
     = fst (get_year_idx yrs c).
Proof.
  pose proof (get_year_idx_frame yrs c) as Hframe.
  split; [exact Hframe|]. rewrite Hframe. reflexivity.
Qed.

(** ** The dataset factory, evaluated *)

Section LoadData.

Context {VarSpec : Type}.
Variables (var_dict : list (string * VarSpec)) (lead : Z).
Variables (train_years validation_years test_years : list Z).
Variables (target_var_dict : list (string * VarSpec)) (datadir : string).
Variables (mmap_mode : option string) (past : list Z).
Variables (own_axis verbose : bool).

(** Whatever the call does, it prints the warning or nothing. *)
Lemma load_data_stdout (w : world) :
  stdout (snd (load_data var_dict lead train_years validation_years
                 test_years target_var_dict datadir mmap_mode past own_axis
                 verbose w))
  = stdout w ++
    (if is_none_mode mmap_mode
     then [warning_line;
           "filedir: " +:+ datadir +:+ "5_625deg_all_zscored.npy"]
     else []).
Proof.
  unfold load_data, bind, print, modify, ret,
    xr_merge_chunks, call, Dataset_memmap, resolve.
  destruct (is_none_mode mmap_mode); simpl;
    repeat match goal with
      | |- context [match ?x with _ => _ end] => destruct x; simpl
      end;
    rewrite <- ?app_assoc, ?app_nil_r; reflexivity.
Qed.

(** A call that returns has read the chunk sizes, resolved the three
    ranges, and built the three views as follows. *)
Lemma load_data_inv (w w' : world) (tr va te : view VarSpec) :
  load_data var_dict lead train_years validation_years test_years
    target_var_dict datadir mmap_mode past own_axis verbose w
    = (Ok (tr, va, te), w') ->
  exists chunks i1 i2 i3,
    merged_time_chunks w
      (map (fun var => datadir +:+ "/" +:+ var +:+ "/*.nc")
           (map fst var_dict)) = Ok chunks
    /\ fst (get_year_idx train_years (Cells chunks past lead)) = Ok i1
    /\ fst (get_year_idx validation_years (Cells chunks past lead)) = Ok i2
    /\ fst (get_year_idx test_years (Cells chunks past lead)) = Ok i3
    /\ tr = View (Opened (length (opened w)))
                 (Opened (S (length (opened w))))
                 var_dict lead (fst i1) (snd i1) true target_var_dict
                 (if is_none_mode mmap_mode then None else mmap_mode)
                 np_float32 past own_axis verbose
    /\ va = View (data tr) (level_names tr)
                 var_dict lead (fst i2) (snd i2) false target_var_dict
                 (if is_none_mode mmap_mode then None else mmap_mode)
                 np_float32 past own_axis verbose
    /\ te = View (data tr) (level_names tr)
                 var_dict lead (fst i3) (snd i3) false target_var_dict
                 (if is_none_mode mmap_mode then None else mmap_mode)
                 np_float32 past own_axis verbose
    /\ opened w' = opened w ++ [datadir +:+ "5_625deg_all_zscored.npy";
                                datadir +:+ "5_625deg_all_level_names.npy"].
Proof.
  unfold load_data, bind, print, modify, ret,
    xr_merge_chunks, call, Dataset_memmap, resolve.
  set (filedir := datadir +:+ "5_625deg_all_zscored.npy").
  set (leveldir := datadir +:+ "5_625deg_all_level_names.npy").
  set (patterns := map _ (map fst var_dict)).
  intros Hrun.
  assert (Hgo :
    match merged_time_chunks w patterns with
    | Ok chunks =>
        match fst (get_year_idx train_years (Cells chunks past lead)),
              fst (get_year_idx validation_years (Cells chunks past lead)),
              fst (get_year_idx test_years (Cells chunks past lead)) with
        | Ok i1, Ok i2, Ok i3 =>
            tr = View (Opened (length (opened w)))
                      (Opened (length (opened w ++ [filedir])))
                      var_dict lead (fst i1) (snd i1) true target_var_dict
                      (if is_none_mode mmap_mode then None else mmap_mode)
                      np_float32 past own_axis verbose
            /\ va = View (data tr) (level_names tr)
                      var_dict lead (fst i2) (snd i2) false target_var_dict
                      (if is_none_mode mmap_mode then None else mmap_mode)
                      np_float32 past own_axis verbose
            /\ te = View (data tr) (level_names tr)
                      var_dict lead (fst i3) (snd i3) false target_var_dict
                      (if is_none_mode mmap_mode then None else mmap_mode)
                      np_float32 past own_axis verbose
            /\ opened w' = (opened w ++ [filedir]) ++ [leveldir]
        | _, _, _ => False
        end
    | Raise _ => False
    end).
  { revert Hrun.
    destruct (is_none_mode mmap_mode); simpl;
      destruct (merged_time_chunks w patterns) as [chunks|]; simpl;
      try discriminate;
      destruct (fst (get_year_idx train_years _)) as [[s1 e1]|]; simpl;
      try discriminate;
      destruct (fst (get_year_idx validation_years _)) as [[s2 e2]|]; simpl;
      try discriminate;
      destruct (fst (get_year_idx test_years _)) as [[s3 e3]|]; simpl;
      try discriminate;
      intros [= <- <- <- <-]; simpl; auto. }
  destruct (merged_time_chunks w patterns) as [chunks|]; [|contradiction].
  destruct (fst (get_year_idx train_years _)) as [i1|] eqn:E1;
    [|contradiction].
  destruct (fst (get_year_idx validation_years _)) as [i2|] eqn:E2;
    [|contradiction].
  destruct (fst (get_year_idx test_years _)) as [i3|] eqn:E3;
    [|contradiction].
  destruct Hgo as (Htr & Hva & Hte & Hopen).
  exists chunks, i1, i2, i3.
  rewrite length_app, Nat.add_1_r in Htr. rewrite <- app_assoc in Hopen.
  repeat split; assumption.
Qed.

(** A call returns as soon as the scan of the files succeeds and each
    range has its two years. *)
Lemma load_data_returns (w : world) (chunks : list N) :
  merged_time_chunks w
    (map (fun var => datadir +:+ "/" +:+ var +:+ "/*.nc")
         (map fst var_dict)) = Ok chunks ->
  (2 <= length train_years)%nat ->
  (2 <= length validation_years)%nat ->
  (2 <= length test_years)%nat ->
  exists tr va te w',
    load_data var_dict lead train_years validation_years test_years
      target_var_dict datadir mmap_mode past own_axis verbose w
      = (Ok (tr, va, te), w').
Proof.
  intros Hscan H1 H2 H3.
  destruct (get_year_idx_total train_years (Cells chunks past lead) H1)
    as (s1 & e1 & E1).
  destruct (get_year_idx_total validation_years (Cells chunks past lead) H2)
    as (s2 & e2 & E2).
  destruct (get_year_idx_total test_years (Cells chunks past lead) H3)
    as (s3 & e3 & E3).
  unfold load_data, bind, print, modify, ret,
    xr_merge_chunks, call, Dataset_memmap, resolve.
  destruct (is_none_mode mmap_mode); simpl;
    rewrite Hscan; simpl; rewrite E1, E2, E3; simpl; eauto.
Qed.

End LoadData.

Lemma is_none_mode_true (m : option string) :
  is_none_mode m = true <-> m = None \/ m = Some "None".
Proof.
  destruct m as [s|]; simpl.
  - rewrite String.eqb_eq. split.
    + intros ->. right. reflexivity.
    + intros [H|H]; [discriminate | congruence].
  - split; auto.
Qed.

Lemma append_inj_l (p a b : string) : p +:+ a = p +:+ b -> a = b.
Proof.
  induction p as [|ch p IH]; simpl; intros H; [exact H|].
  injection H as H. apply IH, H.
Qed.

(** ** The claims on the dataset factory *)

(** C6.  In a call that builds its three views, the backing array file
    and the level-name file are each opened once, by the train view; the
    validation and test views hold the two arrays the train view opened
    and open nothing. *)
Theorem backing_files_opened_once {VarSpec : Type}
    (var_dict : list (string * VarSpec)) (lead : Z)
    (train_years validation_years test_years : list Z)
    (target_var_dict : list (string * VarSpec)) (datadir : string)
    (mmap_mode : option string) (past : list Z) (own_axis verbose : bool)
    (w : world) (chunks : list N) :
  merged_time_chunks w
    (map (fun var => datadir +:+ "/" +:+ var +:+ "/*.nc") (map fst var_dict))
    = Ok chunks ->
  (2 <= length train_years)%nat ->
  (2 <= length validation_years)%nat ->
  (2 <= length test_years)%nat ->
  exists tr va te w',
    load_data var_dict lead train_years validation_years test_years
      target_var_dict datadir mmap_mode past own_axis verbose w
      = (Ok (tr, va, te), w')
    /\ opened w' = opened w ++ [datadir +:+ "5_625deg_all_zscored.npy";
                                datadir +:+ "5_625deg_all_level_names.npy"]
    /\ datadir +:+ "5_625deg_all_zscored.npy"
       <> datadir +:+ "5_625deg_all_level_names.npy"
    /\ data tr = Opened (length (opened w))
    /\ level_names tr = Opened (S (length (opened w)))
    /\ data va = data tr /\ level_names va = level_names tr
    /\ data te = data tr /\ level_names te = level_names tr.
Proof.
  intros Hscan H1 H2 H3.
  destruct (load_data_returns var_dict lead train_years validation_years
              test_years target_var_dict datadir mmap_mode past own_axis
              verbose w chunks Hscan H1 H2 H3) as (tr & va & te & w' & Hrun).
  exists tr, va, te, w'. split; [exact Hrun|].
  apply load_data_inv in Hrun.
  destruct Hrun as (cs & i1 & i2 & i3 & _ & _ & _ & _ & -> & -> & -> & Hopen).
  split; [exact Hopen|].
  split; [intros H; apply append_inj_l in H; discriminate|].
  simpl. repeat split; reflexivity.
Qed.

Lemma backing_files_opened_once_witness :
  let w := World [] [] (fun _ => Ok [8760; 8784; 8760; 8760]%N) in
  let vars : list (string * unit) := [("geopotential", tt)] in
  merged_time_chunks w
    (map (fun var => "data/" +:+ "/" +:+ var +:+ "/*.nc") (map fst vars))
    = Ok [8760; 8784; 8760; 8760]%N /\
  (2 <= length [1979; 1980])%nat /\
  (2 <= length [1981; 1981])%nat /\
  (2 <= length [1982; 1982])%nat /\
  exists tr va te w',
    load_data vars 72 [1979; 1980] [1981; 1981] [1982; 1982] vars "data/"
      (Some "r") [] false false w = (Ok (tr, va, te), w')
    /\ opened w' = ["data/5_625deg_all_zscored.npy";
                    "data/5_625deg_all_level_names.npy"]
    /\ data va = data tr /\ data te = data tr.
Proof.
  intros w vars.
  assert (Hscan : merged_time_chunks w
    (map (fun var => "data/" +:+ "/" +:+ var +:+ "/*.nc") (map fst vars))
    = Ok [8760; 8784; 8760; 8760]%N) by reflexivity.
  assert (H1 : (2 <= length [1979; 1980])%nat) by (simpl; lia).
  assert (H2 : (2 <= length [1981; 1981])%nat) by (simpl; lia).
  assert (H3 : (2 <= length [1982; 1982])%nat) by (simpl; lia).
  destruct (backing_files_opened_once vars 72 [1979; 1980] [1981; 1981]
              [1982; 1982] vars "data/" (Some "r") [] false false w _
              Hscan H1 H2 H3)
    as (tr & va & te & w' & Hrun & Hopen & _ & _ & _ & Hd1 & _ & Hd2 & _).
  repeat (split; [assumption|]).
  exists tr, va, te, w'. repeat split; assumption.
Defined.

(** C9.  A mapping mode given as the string ['None'] or as [None] becomes
    [None]: the warning that the whole dataset goes into memory is printed
    and the three views get the mode [None].  Any other mode is handed to
    the three views as it is, and nothing is printed. *)
Theorem mmap_mode_normalized {VarSpec : Type}
    (var_dict : list (string * VarSpec)) (lead : Z)
    (train_years validation_years test_years : list Z)
    (target_var_dict : list (string * VarSpec)) (datadir : string)
    (mmap_mode : option string) (past : list Z) (own_axis verbose : bool)
    (w : world) (chunks : list N) :
  merged_time_chunks w
    (map (fun var => datadir +:+ "/" +:+ var +:+ "/*.nc") (map fst var_dict))
    = Ok chunks ->
  (2 <= length train_years)%nat ->
  (2 <= length validation_years)%nat ->
  (2 <= length test_years)%nat ->
  exists tr va te w',
    load_data var_dict lead train_years validation_years test_years
      target_var_dict datadir mmap_mode past own_axis verbose w
      = (Ok (tr, va, te), w')
    /\ (mmap_mode = None \/ mmap_mode = Some "None" ->
        stdout w' = stdout w ++
          [warning_line;
           "filedir: " +:+ datadir +:+ "5_625deg_all_zscored.npy"]
        /\ view_mmap_mode tr = None
        /\ view_mmap_mode va = None
        /\ view_mmap_mode te = None)
    /\ (mmap_mode <> None -> mmap_mode <> Some "None" ->
        stdout w' = stdout w
        /\ view_mmap_mode tr = mmap_mode
        /\ view_mmap_mode va = mmap_mode
        /\ view_mmap_mode te = mmap_mode).
Proof.
  intros Hscan H1 H2 H3.
  destruct (load_data_returns var_dict lead train_years validation_years
              test_years target_var_dict datadir mmap_mode past own_axis
              verbose w chunks Hscan H1 H2 H3) as (tr & va & te & w' & Hrun).
  exists tr, va, te, w'. split; [exact Hrun|].
  pose proof (load_data_stdout var_dict lead train_years validation_years
                test_years target_var_dict datadir mmap_mode past own_axis
                verbose w) as Hout.
  rewrite Hrun in Hout. simpl in Hout.
  apply load_data_inv in Hrun.
  destruct Hrun as (cs & i1 & i2 & i3 & _ & _ & _ & _ & -> & -> & -> & _).
  simpl. split.
  - intros Hnone. apply is_none_mode_true in Hnone.
    rewrite Hnone in *. auto.
  - intros Hn Hs.
    destruct (is_none_mode mmap_mode) eqn:E.
    + apply is_none_mode_true in E. tauto.
    + rewrite app_nil_r in Hout. auto.
Qed.

Lemma mmap_mode_normalized_witness :
  let w := World [] [] (fun _ => Ok [8760; 8784; 8760; 8760]%N) in
  let vars : list (string * unit) := [("geopotential", tt)] in
  merged_time_chunks w
    (map (fun var => "data/" +:+ "/" +:+ var +:+ "/*.nc") (map fst vars))
    = Ok [8760; 8784; 8760; 8760]%N /\
  (2 <= length [1979; 1980])%nat /\
  (2 <= length [1981; 1981])%nat /\
  (2 <= length [1982; 1982])%nat /\
  exists tr va te w',
    load_data vars 72 [1979; 1980] [1981; 1981] [1982; 1982] vars "data/"
      (Some "None") [] false false w = (Ok (tr, va, te), w')
    /\ stdout w' = [warning_line;
                    "filedir: data/5_625deg_all_zscored.npy"]
    /\ view_mmap_mode tr = None
    /\ view_mmap_mode va = None
    /\ view_mmap_mode te = None.
Proof.
  intros w vars.
  assert (Hscan : merged_time_chunks w
    (map (fun var => "data/" +:+ "/" +:+ var +:+ "/*.nc") (map fst vars))
    = Ok [8760; 8784; 8760; 8760]%N) by reflexivity.
  assert (H1 : (2 <= length [1979; 1980])%nat) by (simpl; lia).
  assert (H2 : (2 <= length [1981; 1981])%nat) by (simpl; lia).
  assert (H3 : (2 <= length [1982; 1982])%nat) by (simpl; lia).
  destruct (mmap_mode_normalized vars 72 [1979; 1980] [1981; 1981]
              [1982; 1982] vars "data/" (Some "None") [] false false w _
              Hscan H1 H2 H3)
    as (tr & va & te & w' & Hrun & Hnone & _).
  destruct (Hnone (or_intror eq_refl)) as (Hout & Ht & Hv & Hte).
  repeat (split; [assumption|]).
  exists tr, va, te, w'. repeat split; assumption.
Defined.

(** C10.  The train view is built with a randomized order of samples, the
    validation and test views with the chronological order, and the three
    views get the same variable catalog, target catalog, lead time, past
    times and the element type float32, whatever the arguments. *)
Theorem views_order_and_shared_arguments {VarSpec : Type}
    (var_dict : list (string * VarSpec)) (lead : Z)
    (train_years validation_years test_years : list Z)
    (target_var_dict : list (string * VarSpec)) (datadir : string)
    (mmap_mode : option string) (past : list Z) (own_axis verbose : bool)
    (w : world) (chunks : list N) :
  merged_time_chunks w
    (map (fun var => datadir +:+ "/" +:+ var +:+ "/*.nc") (map fst var_dict))
    = Ok chunks ->
  (2 <= length train_years)%nat ->
  (2 <= length validation_years)%nat ->
  (2 <= length test_years)%nat ->
  exists tr va te w',
    load_data var_dict lead train_years validation_years test_years
      target_var_dict datadir mmap_mode past own_axis verbose w
      = (Ok (tr, va, te), w')
    /\ randomize_order tr = true
    /\ randomize_order va = false
    /\ randomize_order te = false
    /\ Forall (fun v : view VarSpec =>
                 view_var_dict v = var_dict
                 /\ view_target_var_dict v = target_var_dict
                 /\ view_lead_time v = lead
                 /\ view_past_times v = past
                 /\ view_dtype v = np_float32)
              [tr; va; te].
Proof.
  intros Hscan H1 H2 H3.
  destruct (load_data_returns var_dict lead train_years validation_years
              test_years target_var_dict datadir mmap_mode past own_axis
              verbose w chunks Hscan H1 H2 H3) as (tr & va & te & w' & Hrun).
  exists tr, va, te, w'. split; [exact Hrun|].
  apply load_data_inv in Hrun.
  destruct Hrun as (cs & i1 & i2 & i3 & _ & _ & _ & _ & -> & -> & -> & _).
  simpl. repeat split; repeat constructor.
Qed.

Lemma views_order_and_shared_arguments_witness :
  let w := World [] [] (fun _ => Ok [8760; 8784; 8760; 8760]%N) in
  let vars : list (string * unit) := [("geopotential", tt)] in
  merged_time_chunks w
    (map (fun var => "data/" +:+ "/" +:+ var +:+ "/*.nc") (map fst vars))
    = Ok [8760; 8784; 8760; 8760]%N /\
  (2 <= length [1979; 1980])%nat /\
  (2 <= length [1981; 1981])%nat /\
  (2 <= length [1982; 1982])%nat /\
  exists tr va te w',
    load_data vars 72 [1979; 1980] [1981; 1981] [1982; 1982] vars "data/"
      (Some "r") [-2; -1; 0] false false w = (Ok (tr, va, te), w')
    /\ randomize_order tr = true
    /\ randomize_order va = false
    /\ randomize_order te = false.
Proof.
  intros w vars.
  assert (Hscan : merged_time_chunks w
    (map (fun var => "data/" +:+ "/" +:+ var +:+ "/*.nc") (map fst vars))
    = Ok [8760; 8784; 8760; 8760]%N) by reflexivity.
  assert (H1 : (2 <= length [1979; 1980])%nat) by (simpl; lia).
  assert (H2 : (2 <= length [1981; 1981])%nat) by (simpl; lia).
  assert (H3 : (2 <= length [1982; 1982])%nat) by (simpl; lia).
  destruct (views_order_and_shared_arguments vars 72 [1979; 1980]
              [1981; 1981] [1982; 1982] vars "data/" (Some "r") [-2; -1; 0]
              false false w _ Hscan H1 H2 H3)
    as (tr & va & te & w' & Hrun & Ht & Hv & Hte & _).
  repeat (split; [assumption|]).
  exists tr, va, te, w'. repeat split; assumption.
Defined.

(** X14.  With adjacent ranges given in the order train, validation, test
    and a non-negative lead time, the windows of the three views follow
    each other on the axis. *)
Lemma views_in_year_order {VarSpec : Type}
    (var_dict : list (string * VarSpec)) (lead : Z) (a b d f : Z)
    (target_var_dict : list (string * VarSpec)) (datadir : string)
    (mmap_mode : option string) (past : list Z) (own_axis verbose : bool)
    (w w' : world) (tr va te : view VarSpec) :
  0 <= lead ->
  load_data var_dict lead [a; b] [b + 1; d] [d + 1; f] target_var_dict
    datadir mmap_mode past own_axis verbose w = (Ok (tr, va, te), w') ->
  view_end tr <= view_start va /\ view_end va <= view_start te.
Proof.
  intros Hlead Hrun. apply load_data_inv in Hrun.
  destruct Hrun as (cs & i1 & i2 & i3 & _ & E1 & E2 & E3 & -> & -> & -> & _).
  rewrite get_year_idx_pair in E1, E2, E3. simpl in E1, E2, E3.
  injection E1 as <-. injection E2 as <-. injection E3 as <-.
  cbn [view_end view_start fst snd].
  split.
  - apply (adjacent_cut (Cells cs past lead) b Hlead).
  - apply (adjacent_cut (Cells cs past lead) d Hlead).
Qed.

(** ** The claims on the model factory *)

(** C7.  A model name outside the supported set takes the final branch:
    the call raises [NotImplementedError] and has constructed nothing. *)
Theorem unsupported_name_not_implemented (model_name : string)
    (n_input_channels n_output_channels : Z) (kwargs : gmap string value)
    (built : list object) :
  ~ In model_name supported ->
  named_network model_name n_input_channels n_output_channels kwargs built
    = (Raise NotImplementedError, built).
Proof.
  unfold supported. intros Hout. unfold named_network.
  repeat match goal with
    | |- context [String.eqb model_name ?s] =>
        destruct (String.eqb_spec model_name s) as [Heq|_];
          [exfalso; apply Hout; rewrite Heq; simpl; auto 10|]
    end.
  reflexivity.
Qed.

Lemma unsupported_name_not_implemented_witness :
  ~ In "lstm" supported /\
  named_network "lstm" 3 2 (∅ : gmap string value) []
    = (Raise NotImplementedError, []).
Proof.
  assert (Hout : ~ In "lstm" supported).
  { unfold supported. simpl. intros H.
    repeat (destruct H as [H|H]; [discriminate H|]). exact H. }
  split; [exact Hout|].
  exact (unsupported_name_not_implemented "lstm" 3 2 ∅ [] Hout).
Defined.

(** C5, as the code has it.  For ['ConvLSTM'] with [kernel_sizes] and
    [filters] given as lists, the factory checks the final filter count
    and nothing else.  When it equals the requested output-channel count
    the network is constructed with [num_layers = len(kernel_sizes)],
    whatever the lengths of the two lists.  When it differs, or [filters]
    is empty, the call raises before anything is constructed; the
    exception is the [AssertionError] of the contract check when
    [filters] is not empty.  [kernel_sizes=[3,3]] with
    [filters=[16, n_output_channels]] passes. *)
Theorem convlstm_checks_final_filter (n_input_channels n_output_channels : Z)
    (ks fs : list Z) (kwargs : gmap string value) (built : list object) :
  kwargs !! "kernel_sizes" = Some (VList ks) ->
  kwargs !! "filters" = Some (VList fs) ->
  let model :=
    CircConvLSTM n_input_channels (Z.of_nat (length ks))
                 (map (fun i => (i, i)) ks) (VList fs) in
  let run :=
    named_network "ConvLSTM" n_input_channels n_output_channels kwargs built in
  (last fs = Some n_output_channels ->
   run = (Ok (model, forward_last_hidden), built ++ [Net model]))
  /\ (last fs <> Some n_output_channels ->
      exists e, run = (Raise e, built))
  /\ (forall z, last fs = Some z -> z <> n_output_channels ->
      run = (Raise (AssertionError
                      "final hidden dim is overall output dim of network!"),
             built))
  /\ (ks = [3; 3] -> fs = [16; n_output_channels] ->
      run = (Ok (model, forward_last_hidden), built ++ [Net model])).
Proof.
  intros Hks Hfs model run.
  assert (Hrun : run =
    match last fs with
    | Some z =>
        if z =? n_output_channels
        then (Ok (model, forward_last_hidden), built ++ [Net model])
        else (Raise (AssertionError
                       "final hidden dim is overall output dim of network!"),
              built)
    | None => (Raise IndexError, built)
    end).
  { subst run model. unfold named_network. simpl String.eqb. cbv iota.
    unfold bind, lift, kwargs_get, ret, construct, modify, assert_, raise.
    rewrite Hks, Hfs. simpl.
    destruct (last fs) as [z|]; [|reflexivity].
    destruct (z =? n_output_channels); reflexivity. }
  rewrite Hrun. clear Hrun. repeat split.
  - intros ->. rewrite Z.eqb_refl. reflexivity.
  - intros Hne. destruct (last fs) as [z|]; [|eauto].
    destruct (Z.eqb_spec z n_output_channels) as [->|_]; [congruence|eauto].
  - intros z -> Hne.
    destruct (Z.eqb_spec z n_output_channels); [contradiction|reflexivity].
  - intros _ ->. simpl. rewrite Z.eqb_refl. reflexivity.
Qed.

Lemma convlstm_checks_final_filter_witness :
  let kwargs : gmap string value :=
    <["kernel_sizes" := VList [3; 3]]> (<["filters" := VList [16; 2]]> ∅) in
  kwargs !! "kernel_sizes" = Some (VList [3; 3]) /\
  kwargs !! "filters" = Some (VList [16; 2]) /\
  named_network "ConvLSTM" 5 2 kwargs []
    = (Ok (CircConvLSTM 5 2 [(3, 3); (3, 3)] (VList [16; 2]),
           forward_last_hidden),
       [Net (CircConvLSTM 5 2 [(3, 3); (3, 3)] (VList [16; 2]))]).
Proof.
  intros kwargs.
  assert (Hks : kwargs !! "kernel_sizes" = Some (VList [3; 3]))
    by (vm_compute; reflexivity).
  assert (Hfs : kwargs !! "filters" = Some (VList [16; 2]))
    by (vm_compute; reflexivity).
  split; [exact Hks|]. split; [exact Hfs|].
  destruct (convlstm_checks_final_filter 5 2 [3; 3] [16; 2] kwargs [] Hks Hfs)
    as (Hpass & _).
  apply Hpass. reflexivity.
Defined.

(** C5, as the claim has it, fails on the lengths: three kernel sizes with
    two filters whose last one is the output-channel count pass the check,
    and the network is constructed with three layers and two hidden
    sizes. *)
Lemma convlstm_length_mismatch_passes :
  length [3; 3; 3] <> length [16; 2]
  /\ named_network "ConvLSTM" 1 2
       (<["kernel_sizes" := VList [3; 3; 3]]>
          (<["filters" := VList [16; 2]]> ∅)) []
     = (Ok (CircConvLSTM 1 3 [(3, 3); (3, 3); (3, 3)] (VList [16; 2]),
            forward_last_hidden),
        [Net (CircConvLSTM 1 3 [(3, 3); (3, 3); (3, 3)] (VList [16; 2]))]).
Proof. split; [discriminate | vm_compute; reflexivity]. Qed.

(** * Further properties *)

(** ** The resolver at the edges of its input *)

(** A sum over a slice of the chunk sizes lies between 0 and the length of
    the axis, wherever the slice is cut. *)
Lemma np_sum_slice_bounds (chunks : list N) (k : Z) :
  0 <= np_sum (py_slice_to k (map Z.of_N chunks)) <= axis_length chunks.
Proof.
  unfold py_slice_to. destruct (k <? 0); rewrite np_sum_firstn;
    (split; [apply cumulative_nonneg | apply cumulative_le_axis]).
Qed.

Lemma cumulative_add (chunks : list N) (n m : nat) :
  cumulative chunks (n + m)
  = cumulative chunks n + np_sum (map (chunk_at chunks) (seq n m)).
Proof.
  induction m as [|m IH].
  - rewrite Nat.add_0_r. simpl. lia.
  - rewrite Nat.add_succ_r. simpl cumulative. rewrite IH.
    rewrite seq_S, map_app, np_sum_app. simpl. lia.
Qed.

(** What a returning call of the resolver was given and what it
    computed. *)
Lemma get_year_idx_ok_inv (yrs : list Z) (c : cells) (s e : Z) :
  fst (get_year_idx yrs c) = Ok (s, e) ->
  exists ys ye rest,
    yrs = ys :: ye :: rest
    /\ s = np_sum (py_slice_to (ys - 1979) (map Z.of_N (x_chunks_time c)))
           - min_with_zero (past_times c)
    /\ e = np_sum (py_slice_to (ye - 1979 + 1) (map Z.of_N (x_chunks_time c)))
           - lead_time c.
Proof.
  destruct yrs as [|ys [|ye rest]];
    unfold get_year_idx, bind, get, lift, ret; simpl;
    rewrite ?np_min_with_zero; simpl; try discriminate.
  intros [= <- <-]. exists ys, ye, rest.
  rewrite Z.add_0_r. auto.
Qed.

(** The frames a sample refers to: its target at [lead_time], itself, and
    its past frames. *)
Lemma offsets_between (past : list Z) (lead o : Z) :
  Forall (fun p => p <= 0) past -> 0 <= lead ->
  In o (lead :: 0 :: past) ->
  min_with_zero past <= o <= lead.
Proof.
  intros Hpast Hlead Ho.
  pose proof (min_with_zero_nonpos past).
  destruct Ho as [<-|[<-|Ho]]; try lia.
  pose proof (min_with_zero_le _ _ Ho).
  pose proof (proj1 (List.Forall_forall _ _) Hpast o Ho) as Hp.
  simpl in Hp. lia.
Qed.

(** X1.  A range with fewer than two years has no [idx[1]]: the resolver
    raises [IndexError]. *)
Theorem short_range_raises (yrs : list Z) (c : cells) :
  (length yrs < 2)%nat ->
  get_year_idx yrs c = (Raise IndexError, c).
Proof.
  intros Hlen. destruct yrs as [|ys [|ye rest]]; simpl in Hlen; try lia.
  - reflexivity.
  - unfold get_year_idx, bind, get, lift, ret. simpl.
    rewrite np_min_with_zero. reflexivity.
Qed.

Lemma short_range_raises_witness :
  (length [1979] < 2)%nat /\
  get_year_idx [1979] (Cells [8760; 8784]%N [-2] 6)
    = (Raise IndexError, Cells [8760; 8784]%N [-2] 6).
Proof.
  assert (Hlen : (length [1979] < 2)%nat) by (simpl; lia).
  split; [exact Hlen|].
  exact (short_range_raises [1979] (Cells [8760; 8784]%N [-2] 6) Hlen).
Defined.

(** X2.  Only the first two years of a range count: further elements do
    not change the result. *)
Theorem further_years_ignored (ys ye : Z) (rest : list Z) (c : cells) :
  get_year_idx (ys :: ye :: rest) c = get_year_idx [ys; ye] c.
Proof.
  unfold get_year_idx, bind, get, lift, ret. simpl.
  rewrite np_min_with_zero. reflexivity.
Qed.

(** X3.  For indexed years [ys <= ye] the window holds the timesteps of
    the years [ys .. ye] less the lead time and the runway. *)
Theorem window_length_of_range (c : cells) (ys ye : Z) :
  year_indexed (x_chunks_time c) ys ->
  year_indexed (x_chunks_time c) ye ->
  ys <= ye ->
  exists idx_start idx_end,
    get_year_idx [ys; ye] c = (Ok (idx_start, idx_end), c)
    /\ idx_end - idx_start
       = np_sum (map (chunk_at (x_chunks_time c))
                     (seq (Z.to_nat (ys - 1979)) (Z.to_nat (ye - ys + 1))))
         - lead_time c - (- min_with_zero (past_times c)).
Proof.
  intros Hs He Hle. eexists _, _.
  split; [apply get_year_idx_indexed; assumption|].
  unfold year_indexed in *.
  replace (S (Z.to_nat (ye - 1979)))
    with (Z.to_nat (ys - 1979) + Z.to_nat (ye - ys + 1))%nat by lia.
  rewrite cumulative_add. lia.
Qed.

Lemma window_length_of_range_witness :
  let c := Cells [8760; 8784; 8760]%N [-2; -1; 0] 6 in
  year_indexed (x_chunks_time c) 1979 /\
  year_indexed (x_chunks_time c) 1980 /\
  1979 <= 1980 /\
  exists idx_start idx_end,
    get_year_idx [1979; 1980] c = (Ok (idx_start, idx_end), c)
    /\ idx_end - idx_start = 8760 + 8784 - 6 - 2.
Proof.
  intros c.
  assert (Hs : year_indexed (x_chunks_time c) 1979) by indexed.
  assert (He : year_indexed (x_chunks_time c) 1980) by indexed.
  assert (Hle : 1979 <= 1980) by lia.
  destruct (window_length_of_range c 1979 1980 Hs He Hle)
    as (s & e & Hrun & Hlen).
  split; [exact Hs|]. split; [exact He|]. split; [exact Hle|].
  exists s, e. split; [exact Hrun|]. rewrite Hlen. reflexivity.
Defined.

(** X4.  Years after the last indexed one are not rejected: the slice
    stops at the end of the axis, so both sums are the length of the
    axis. *)
Theorem years_after_index_clamped (c : cells) (ys ye : Z) :
  1979 + Z.of_nat (length (x_chunks_time c)) <= ys ->
  1979 + Z.of_nat (length (x_chunks_time c)) - 1 <= ye ->
  get_year_idx [ys; ye] c
  = (Ok (axis_length (x_chunks_time c) - min_with_zero (past_times c),
         axis_length (x_chunks_time c) - lead_time c), c).
Proof.
  intros Hs He. rewrite get_year_idx_pair.
  rewrite !py_slice_to_nonneg by lia. rewrite !np_sum_firstn.
  rewrite !cumulative_overflow by lia. reflexivity.
Qed.

Lemma years_after_index_clamped_witness :
  let c := Cells [10; 20; 30]%N [-2] 1 in
  1979 + Z.of_nat (length (x_chunks_time c)) <= 1990 /\
  1979 + Z.of_nat (length (x_chunks_time c)) - 1 <= 1995 /\
  get_year_idx [1990; 1995] c = (Ok (62, 59), c).
Proof.
  intros c.
  assert (Hs : 1979 + Z.of_nat (length (x_chunks_time c)) <= 1990)
    by (simpl; lia).
  assert (He : 1979 + Z.of_nat (length (x_chunks_time c)) - 1 <= 1995)
    by (simpl; lia).
  split; [exact Hs|]. split; [exact He|].
  rewrite (years_after_index_clamped c 1990 1995 Hs He). reflexivity.
Defined.

(** X5.  A start year [k] years before 1979 is not rejected either: the
    slice bound is negative and counts from the end of the index, so the
    start sum covers all chunks but the last [k] (none when [k] exceeds
    the number of chunks). *)
Theorem years_before_epoch_count_from_end (c : cells) (k ye : Z) :
  0 < k ->
  exists idx_end,
    get_year_idx [1979 - k; ye] c
    = (Ok (cumulative (x_chunks_time c)
             (length (x_chunks_time c) - Z.to_nat k)
           - min_with_zero (past_times c), idx_end), c).
Proof.
  intros Hk. eexists. rewrite get_year_idx_pair.
  unfold py_slice_to at 1.
  destruct (1979 - k - 1979 <? 0) eqn:E; [|apply Z.ltb_ge in E; lia].
  rewrite length_map.
  replace (Z.to_nat (Z.of_nat (length (x_chunks_time c)) + (1979 - k - 1979)))
    with (length (x_chunks_time c) - Z.to_nat k)%nat by lia.
  rewrite np_sum_firstn. reflexivity.
Qed.

Lemma years_before_epoch_count_from_end_witness :
  let c := Cells [10; 20; 30]%N [] 0 in
  0 < 1 /\
  exists idx_end, get_year_idx [1979 - 1; 1979] c = (Ok (30, idx_end), c).
Proof.
  intros c. assert (Hk : 0 < 1) by lia. split; [exact Hk|].
  destruct (years_before_epoch_count_from_end c 1 1979 Hk) as (e & Hrun).
  exists e. rewrite Hrun. reflexivity.
Defined.

(** X6.  Between two adjacent ranges exactly [lead_time + runway] indices
    belong to neither window, whatever the years. *)
Theorem adjacent_gap_exact (c : cells) (a b d : Z) :
  exists s1 e1 s2 e2,
    get_year_idx [a; b] c = (Ok (s1, e1), c)
    /\ get_year_idx [b + 1; d] c = (Ok (s2, e2), c)
    /\ s2 - e1 = lead_time c + (- min_with_zero (past_times c)).
Proof.
  eexists _, _, _, _.
  split; [apply get_year_idx_pair|]. split; [apply get_year_idx_pair|].
  replace (b + 1 - 1979) with (b - 1979 + 1) by lia. lia.
Qed.

(** X7.  With non-positive past times and a non-negative lead time, no
    frame is used on both sides of the cut between two adjacent ranges:
    every frame of a sample of the first window (its target, itself, its
    past frames) comes before every frame of a sample of the second. *)
Theorem adjacent_windows_share_no_frame (c : cells) (a b d : Z) :
  Forall (fun p => p <= 0) (past_times c) ->
  0 <= lead_time c ->
  exists s1 e1 s2 e2,
    get_year_idx [a; b] c = (Ok (s1, e1), c)
    /\ get_year_idx [b + 1; d] c = (Ok (s2, e2), c)
    /\ forall i j o1 o2,
         s1 <= i < e1 -> s2 <= j < e2 ->
         In o1 (lead_time c :: 0 :: past_times c) ->
         In o2 (lead_time c :: 0 :: past_times c) ->
         i + o1 < j + o2.
Proof.
  intros Hpast Hlead. eexists _, _, _, _.
  split; [apply get_year_idx_pair|]. split; [apply get_year_idx_pair|].
  replace (b + 1 - 1979) with (b - 1979 + 1) by lia.
  intros i j o1 o2 Hi Hj Ho1 Ho2.
  pose proof (offsets_between _ _ _ Hpast Hlead Ho1).
  pose proof (offsets_between _ _ _ Hpast Hlead Ho2).
  lia.
Qed.

Lemma adjacent_windows_share_no_frame_witness :
  let c := Cells [8760; 8784; 8760]%N [-2; -1; 0] 6 in
  Forall (fun p => p <= 0) (past_times c) /\
  0 <= lead_time c /\
  exists s1 e1 s2 e2,
    get_year_idx [1979; 1979] c = (Ok (s1, e1), c)
    /\ get_year_idx [1979 + 1; 1981] c = (Ok (s2, e2), c)
    /\ forall i j o1 o2,
         s1 <= i < e1 -> s2 <= j < e2 ->
         In o1 (lead_time c :: 0 :: past_times c) ->
         In o2 (lead_time c :: 0 :: past_times c) ->
         i + o1 < j + o2.
Proof.
  intros c.
  assert (Hpast : Forall (fun p => p <= 0) (past_times c)).
  { simpl. repeat constructor; lia. }
  assert (Hlead : 0 <= lead_time c) by (simpl; lia).
  split; [exact Hpast|]. split; [exact Hlead|].
  exact (adjacent_windows_share_no_frame c 1979 1979 1981 Hpast Hlead).
Defined.

(** X8.  The frames of a window stay inside the axis for any two years,
    indexed or not: with non-positive past times and a non-negative lead
    time, every sample index [i] of the window has [i + p] and
    [i + lead_time] in [[0, axis length)]. *)
Theorem window_inside_axis_any_years (c : cells) (ys ye : Z) :
  Forall (fun p => p <= 0) (past_times c) ->
  0 <= lead_time c ->
  exists idx_start idx_end,
    get_year_idx [ys; ye] c = (Ok (idx_start, idx_end), c)
    /\ forall i o, idx_start <= i < idx_end ->
         In o (lead_time c :: 0 :: past_times c) ->
         0 <= i + o < axis_length (x_chunks_time c).
Proof.
  intros Hpast Hlead. eexists _, _.
  split; [apply get_year_idx_pair|].
  intros i o Hi Ho.
  pose proof (offsets_between _ _ _ Hpast Hlead Ho).
  pose proof (np_sum_slice_bounds (x_chunks_time c) (ys - 1979)).
  pose proof (np_sum_slice_bounds (x_chunks_time c) (ye - 1979 + 1)).
  lia.
Qed.

Lemma window_inside_axis_any_years_witness :
  let c := Cells [10; 20; 30]%N [-2; -1; 0] 6 in
  Forall (fun p => p <= 0) (past_times c) /\
  0 <= lead_time c /\
  exists idx_start idx_end,
    get_year_idx [1978; 1979] c = (Ok (idx_start, idx_end), c)
    /\ forall i o, idx_start <= i < idx_end ->
         In o (lead_time c :: 0 :: past_times c) ->
         0 <= i + o < axis_length (x_chunks_time c).
Proof.
  intros c.
  assert (Hpast : Forall (fun p => p <= 0) (past_times c)).
  { simpl. repeat constructor; lia. }
  assert (Hlead : 0 <= lead_time c) by (simpl; lia).
  split; [exact Hpast|]. split; [exact Hlead|].
  exact (window_inside_axis_any_years c 1978 1979 Hpast Hlead).
Defined.

(** ** The dataset factory on its failing paths *)

Lemma get_year_idx_short (yrs : list Z) (c : cells) :
  (length yrs < 2)%nat -> fst (get_year_idx yrs c) = Raise IndexError.
Proof.
  intros Hlen. destruct yrs as [|ys [|ye rest]]; simpl in Hlen; try lia.
  - reflexivity.
  - unfold get_year_idx, bind, get, lift, ret. simpl.
    rewrite np_min_with_zero. reflexivity.
Qed.

Lemma get_year_idx_long (yrs : list Z) (c : cells) :
  (2 <= length yrs)%nat -> exists i, fst (get_year_idx yrs c) = Ok i.
Proof.
  intros Hlen. destruct (get_year_idx_total yrs c Hlen) as (s & e & H).
  exists (s, e). rewrite H. reflexivity.
Qed.

(** X9.  On every path, returning or raising, a call prints the two
    lines of the warning when the mode is [None] or ['None'] and nothing
    otherwise, and it opens either no file or the backing array followed
    by the level names, never anything else. *)
Theorem load_data_effects_on_every_path {VarSpec : Type}
    (var_dict : list (string * VarSpec)) (lead : Z)
    (train_years validation_years test_years : list Z)
    (target_var_dict : list (string * VarSpec)) (datadir : string)
    (mmap_mode : option string) (past : list Z) (own_axis verbose : bool)
    (w : world) :
  let w' :=
    snd (load_data var_dict lead train_years validation_years test_years
           target_var_dict datadir mmap_mode past own_axis verbose w) in
  stdout w' = stdout w ++
    (if is_none_mode mmap_mode
     then [warning_line;
           "filedir: " +:+ datadir +:+ "5_625deg_all_zscored.npy"]
     else [])
  /\ (opened w' = opened w
      \/ opened w' = opened w ++ [datadir +:+ "5_625deg_all_zscored.npy";
                                  datadir +:+ "5_625deg_all_level_names.npy"]).
Proof.
  unfold load_data, bind, print, modify, ret,
    xr_merge_chunks, call, Dataset_memmap, resolve.
  destruct (is_none_mode mmap_mode); simpl;
    repeat match goal with
      | |- context [match ?x with _ => _ end] => destruct x; simpl
      end;
    rewrite <- ?app_assoc, ?app_nil_r; simpl; auto.
Qed.

(** X10.  When the scan of the variable files raises, the call raises the
    same exception and no file of the dataset has been opened. *)
Theorem scan_failure_propagates {VarSpec : Type}
    (var_dict : list (string * VarSpec)) (lead : Z)
    (train_years validation_years test_years : list Z)
    (target_var_dict : list (string * VarSpec)) (datadir : string)
    (mmap_mode : option string) (past : list Z) (own_axis verbose : bool)
    (w : world) (e : exn) :
  merged_time_chunks w
    (map (fun var => datadir +:+ "/" +:+ var +:+ "/*.nc") (map fst var_dict))
    = Raise e ->
  let r := load_data var_dict lead train_years validation_years test_years
             target_var_dict datadir mmap_mode past own_axis verbose w in
  fst r = Raise e /\ opened (snd r) = opened w.
Proof.
  intros Hscan. unfold load_data, bind, print, modify, ret,
    xr_merge_chunks, call, Dataset_memmap, resolve.
  destruct (is_none_mode mmap_mode); simpl; rewrite Hscan; simpl; auto.
Qed.

Lemma scan_failure_propagates_witness :
  let w := World [] [] (fun _ => Raise ValueError) in
  let vars : list (string * unit) := [("geopotential", tt)] in
  merged_time_chunks w
    (map (fun var => "data/" +:+ "/" +:+ var +:+ "/*.nc") (map fst vars))
    = Raise ValueError /\
  let r := load_data vars 72 [1979; 1980] [1981; 1981] [1982; 1982] vars
             "data/" (Some "r") [] false false w in
  fst r = Raise ValueError /\ opened (snd r) = [].
Proof.
  intros w vars.
  assert (Hscan : merged_time_chunks w
    (map (fun var => "data/" +:+ "/" +:+ var +:+ "/*.nc") (map fst vars))
    = Raise ValueError) by reflexivity.
  split; [exact Hscan|].
  exact (scan_failure_propagates vars 72 [1979; 1980] [1981; 1981]
           [1982; 1982] vars "data/" (Some "r") [] false false w ValueError
           Hscan).
Defined.

(** X11.  A train range with fewer than two years makes the call raise
    [IndexError] before any file of the dataset is opened. *)
Theorem short_train_range_opens_nothing {VarSpec : Type}
    (var_dict : list (string * VarSpec)) (lead : Z)
    (train_years validation_years test_years : list Z)
    (target_var_dict : list (string * VarSpec)) (datadir : string)
    (mmap_mode : option string) (past : list Z) (own_axis verbose : bool)
    (w : world) (chunks : list N) :
  merged_time_chunks w
    (map (fun var => datadir +:+ "/" +:+ var +:+ "/*.nc") (map fst var_dict))
    = Ok chunks ->
  (length train_years < 2)%nat ->
  let r := load_data var_dict lead train_years validation_years test_years
             target_var_dict datadir mmap_mode past own_axis verbose w in
  fst r = Raise IndexError /\ opened (snd r) = opened w.
Proof.
  intros Hscan Hlen.
  pose proof (get_year_idx_short train_years (Cells chunks past lead) Hlen)
    as E1.
  unfold load_data, bind, print, modify, ret,
    xr_merge_chunks, call, Dataset_memmap, resolve.
  destruct (is_none_mode mmap_mode); simpl; rewrite Hscan; simpl;
    rewrite E1; simpl; auto.
Qed.

Lemma short_train_range_opens_nothing_witness :
  let w := World [] [] (fun _ => Ok [8760; 8784; 8760; 8760]%N) in
  let vars : list (string * unit) := [("geopotential", tt)] in
  merged_time_chunks w
    (map (fun var => "data/" +:+ "/" +:+ var +:+ "/*.nc") (map fst vars))
    = Ok [8760; 8784; 8760; 8760]%N /\
  (length [1979] < 2)%nat /\
  let r := load_data vars 72 [1979] [1981; 1981] [1982; 1982] vars
             "data/" (Some "r") [] false false w in
  fst r = Raise IndexError /\ opened (snd r) = [].
Proof.
  intros w vars.
  assert (Hscan : merged_time_chunks w
    (map (fun var => "data/" +:+ "/" +:+ var +:+ "/*.nc") (map fst vars))
    = Ok [8760; 8784; 8760; 8760]%N) by reflexivity.
  assert (Hlen : (length [1979] < 2)%nat) by (simpl; lia).
  split; [exact Hscan|]. split; [exact Hlen|].
  exact (short_train_range_opens_nothing vars 72 [1979] [1981; 1981]
           [1982; 1982] vars "data/" (Some "r") [] false false w _
           Hscan Hlen).
Defined.

(** X12.  A validation or test range with fewer than two years is found
    only after the train view is built: the call raises [IndexError] and
    the two files of the dataset have been opened by then. *)
Theorem short_later_range_after_open {VarSpec : Type}
    (var_dict : list (string * VarSpec)) (lead : Z)
    (train_years validation_years test_years : list Z)
    (target_var_dict : list (string * VarSpec)) (datadir : string)
    (mmap_mode : option string) (past : list Z) (own_axis verbose : bool)
    (w : world) (chunks : list N) :
  merged_time_chunks w
    (map (fun var => datadir +:+ "/" +:+ var +:+ "/*.nc") (map fst var_dict))
    = Ok chunks ->
  (2 <= length train_years)%nat ->
  (length validation_years < 2)%nat \/ (length test_years < 2)%nat ->
  let r := load_data var_dict lead train_years validation_years test_years
             target_var_dict datadir mmap_mode past own_axis verbose w in
  fst r = Raise IndexError
  /\ opened (snd r)
     = opened w ++ [datadir +:+ "5_625deg_all_zscored.npy";
                    datadir +:+ "5_625deg_all_level_names.npy"].
Proof.
  intros Hscan H1 Hbad.
  destruct (get_year_idx_long train_years (Cells chunks past lead) H1)
    as ([s1 e1] & E1).
  unfold load_data, bind, print, modify, ret,
    xr_merge_chunks, call, Dataset_memmap, resolve.
  destruct (Nat.lt_ge_cases (length validation_years) 2) as [H2|H2].
  - pose proof (get_year_idx_short validation_years
                  (Cells chunks past lead) H2) as E2.
    destruct (is_none_mode mmap_mode); simpl; rewrite Hscan; simpl;
      rewrite E1; simpl; rewrite E2; simpl;
      rewrite <- app_assoc; auto.
  - destruct Hbad as [H|H3]; [lia|].
    destruct (get_year_idx_long validation_years (Cells chunks past lead) H2)
      as ([s2 e2] & E2).
    pose proof (get_year_idx_short test_years
                  (Cells chunks past lead) H3) as E3.
    destruct (is_none_mode mmap_mode); simpl; rewrite Hscan; simpl;
      rewrite E1; simpl; rewrite E2; simpl; rewrite E3; simpl;
      rewrite <- app_assoc; auto.
Qed.

Lemma short_later_range_after_open_witness :
  let w := World [] [] (fun _ => Ok [8760; 8784; 8760; 8760]%N) in
  let vars : list (string * unit) := [("geopotential", tt)] in
  merged_time_chunks w
    (map (fun var => "data/" +:+ "/" +:+ var +:+ "/*.nc") (map fst vars))
    = Ok [8760; 8784; 8760; 8760]%N /\
  (2 <= length [1979; 1980])%nat /\
  ((length [1981] < 2)%nat \/ (length [1982; 1982] < 2)%nat) /\
  let r := load_data vars 72 [1979; 1980] [1981] [1982; 1982] vars
             "data/" (Some "r") [] false false w in
  fst r = Raise IndexError
  /\ opened (snd r) = ["data/5_625deg_all_zscored.npy";
                       "data/5_625deg_all_level_names.npy"].
Proof.
  intros w vars.
  assert (Hscan : merged_time_chunks w
    (map (fun var => "data/" +:+ "/" +:+ var +:+ "/*.nc") (map fst vars))
    = Ok [8760; 8784; 8760; 8760]%N) by reflexivity.
  assert (H1 : (2 <= length [1979; 1980])%nat) by (simpl; lia).
  assert (Hbad : (length [1981] < 2)%nat \/ (length [1982; 1982] < 2)%nat)
    by (left; simpl; lia).
  split; [exact Hscan|]. split; [exact H1|]. split; [exact Hbad|].
  exact (short_later_range_after_open vars 72 [1979; 1980] [1981]
           [1982; 1982] vars "data/" (Some "r") [] false false w _
           Hscan H1 Hbad).
Defined.

(** ** The views of a returning call *)

(** X13.  In a returning call with non-positive past times and a
    non-negative lead time, every sample of every view finds its target,
    itself and its past frames inside the merged axis, whatever the
    years. *)
Theorem views_frames_inside_axis {VarSpec : Type}
    (var_dict : list (string * VarSpec)) (lead : Z)
    (train_years validation_years test_years : list Z)
    (target_var_dict : list (string * VarSpec)) (datadir : string)
    (mmap_mode : option string) (past : list Z) (own_axis verbose : bool)
    (w w' : world) (tr va te : view VarSpec) :
  Forall (fun p => p <= 0) past ->
  0 <= lead ->
  load_data var_dict lead train_years validation_years test_years
    target_var_dict datadir mmap_mode past own_axis verbose w
    = (Ok (tr, va, te), w') ->
  exists chunks,
    merged_time_chunks w
      (map (fun var => datadir +:+ "/" +:+ var +:+ "/*.nc")
           (map fst var_dict)) = Ok chunks
    /\ Forall (fun v : view VarSpec =>
                 forall i o, view_start v <= i < view_end v ->
                   In o (lead :: 0 :: past) ->
                   0 <= i + o < axis_length chunks)
              [tr; va; te].
Proof.
  intros Hpast Hlead Hrun. apply load_data_inv in Hrun.
  destruct Hrun as (cs & [s1 e1] & [s2 e2] & [s3 e3] & Hscan & E1 & E2 & E3
                    & -> & -> & -> & _).
  exists cs. split; [exact Hscan|].
  apply get_year_idx_ok_inv in E1, E2, E3.
  destruct E1 as (a1 & b1 & r1 & _ & -> & ->).
  destruct E2 as (a2 & b2 & r2 & _ & -> & ->).
  destruct E3 as (a3 & b3 & r3 & _ & -> & ->).
  cbn [x_chunks_time past_times lead_time].
  constructor; [|constructor; [|constructor; [|constructor]]];
    cbn [view_start view_end fst snd];
    intros i o Hi Ho;
    pose proof (offsets_between _ _ _ Hpast Hlead Ho);
    match goal with
    | H : ?lo - _ <= i < ?hi - _ |- _ =>
        match lo with
        | np_sum (py_slice_to ?k1 _) =>
            pose proof (np_sum_slice_bounds cs k1)
        end;
        match hi with
        | np_sum (py_slice_to ?k2 _) =>
            pose proof (np_sum_slice_bounds cs k2)
        end
    end; lia.
Qed.

Lemma views_frames_inside_axis_witness :
  let w := World [] [] (fun _ => Ok [8760; 8784; 8760; 8760]%N) in
  let vars : list (string * unit) := [("geopotential", tt)] in
  Forall (fun p => p <= 0) [-2; -1; 0] /\
  0 <= 72 /\
  exists tr va te w',
    load_data vars 72 [1979; 1980] [1981; 1981] [1982; 1982] vars "data/"
      (Some "r") [-2; -1; 0] false false w = (Ok (tr, va, te), w')
    /\ Forall (fun v : view unit =>
                 forall i o, view_start v <= i < view_end v ->
                   In o [72; 0; -2; -1; 0] ->
                   0 <= i + o < 8760 + 8784 + 8760 + 8760)
              [tr; va; te].
Proof.
  intros w vars.
  assert (Hpast : Forall (fun p => p <= 0) [-2; -1; 0])
    by (repeat constructor; lia).
  assert (Hlead : 0 <= 72) by lia.
  split; [exact Hpast|]. split; [exact Hlead|].
  eexists _, _, _, _. split; [vm_compute; reflexivity|].
  destruct (views_frames_inside_axis vars 72 [1979; 1980] [1981; 1981]
              [1982; 1982] vars "data/" (Some "r") [-2; -1; 0] false false
              w _ _ _ _ Hpast Hlead eq_refl) as (cs & Hscan & Hall).
  injection Hscan as <-. exact Hall.
Defined.

Lemma views_in_year_order_witness :
  let w := World [] [] (fun _ => Ok [8760; 8784; 8760; 8760]%N) in
  let vars : list (string * unit) := [("geopotential", tt)] in
  0 <= 72 /\
  exists tr va te w',
    load_data vars 72 [1979; 1980] [1980 + 1; 1981] [1981 + 1; 1982] vars
      "data/" (Some "r") [-2; -1; 0] false false w = (Ok (tr, va, te), w')
    /\ view_end tr <= view_start va /\ view_end va <= view_start te.
Proof.
  intros w vars.
  assert (Hlead : 0 <= 72) by lia.
  split; [exact Hlead|].
  eexists _, _, _, _. split; [vm_compute; reflexivity|].
  exact (views_in_year_order vars 72 1979 1980 1981 1982 vars "data/"
           (Some "r") [-2; -1; 0] false false w _ _ _ _ Hlead eq_refl).
Defined.

(** X15.  The validation and test views of a returning call are the
    train view with another window and the chronological order: the two
    arrays, both catalogs, the lead time, the mapping mode, the element
    type, the past times, the own-axis flag and the verbosity are those of
    the train view. *)
Theorem views_differ_in_window_and_order {VarSpec : Type}
    (var_dict : list (string * VarSpec)) (lead : Z)
    (train_years validation_years test_years : list Z)
    (target_var_dict : list (string * VarSpec)) (datadir : string)
    (mmap_mode : option string) (past : list Z) (own_axis verbose : bool)
    (w w' : world) (tr va te : view VarSpec) :
  load_data var_dict lead train_years validation_years test_years
    target_var_dict datadir mmap_mode past own_axis verbose w
    = (Ok (tr, va, te), w') ->
  let with_window (v : view VarSpec) (start end_ : Z) :=
    View (data v) (level_names v) (view_var_dict v) (view_lead_time v)
         start end_ false (view_target_var_dict v) (view_mmap_mode v)
         (view_dtype v) (view_past_times v) (view_past_times_own_axis v)
         (view_verbose v) in
  va = with_window tr (view_start va) (view_end va)
  /\ te = with_window tr (view_start te) (view_end te)
  /\ view_past_times_own_axis tr = own_axis
  /\ view_verbose tr = verbose.
Proof.
  intros Hrun. apply load_data_inv in Hrun.
  destruct Hrun as (cs & i1 & i2 & i3 & _ & _ & _ & _ & -> & -> & -> & _).
  simpl. repeat split; reflexivity.
Qed.

Lemma views_differ_in_window_and_order_witness :
  let w := World [] [] (fun _ => Ok [8760; 8784; 8760; 8760]%N) in
  let vars : list (string * unit) := [("geopotential", tt)] in
  exists tr va te w',
    load_data vars 72 [1979; 1980] [1981; 1981] [1982; 1982] vars "data/"
      (Some "r") [-2; -1; 0] true false w = (Ok (tr, va, te), w')
    /\ view_past_times_own_axis va = true
    /\ view_verbose te = false
    /\ data te = data tr.
Proof.
  intros w vars.
  eexists _, _, _, _. split; [vm_compute; reflexivity|].
  destruct (views_differ_in_window_and_order vars 72 [1979; 1980]
              [1981; 1981] [1982; 1982] vars "data/" (Some "r") [-2; -1; 0]
              true false w _ _ _ _ eq_refl) as (Hva & Hte & _ & _).
  split; [exact (f_equal view_past_times_own_axis Hva)|].
  split; [exact (f_equal view_verbose Hte)|].
  exact (f_equal data Hte).
Defined.

Lemma separated_windows_ordered_witness :
  let c := Cells [8760; 8784; 8760; 8760]%N [-2; -1; 0] 6 in
  year_indexed (x_chunks_time c) 1979 /\ 1979 < 1981 /\ 0 <= lead_time c /\
  exists s1 e1 s2 e2,
    get_year_idx [1979; 1979] c = (Ok (s1, e1), c)
    /\ get_year_idx [1981; 1982] c = (Ok (s2, e2), c)
    /\ e1 <= s2.
Proof.
  intros c.
  assert (Hb : year_indexed (x_chunks_time c) 1979) by indexed.
  assert (Hlt : 1979 < 1981) by lia.
  assert (Hlead : 0 <= lead_time c) by (simpl; lia).
  split; [exact Hb|]. split; [exact Hlt|]. split; [exact Hlead|].
  exact (separated_windows_ordered c 1979 1979 1981 1982 Hb Hlt Hlead).
Defined.

(** ** The model factory, branch by branch *)



(** X18.  The branches ['cnnbn'], ['Unetbn'] and ['tvfcnResnet50'] do not
    read the keyword configuration: any configuration gives what the
    empty one gives. *)
Theorem fixed_networks_ignore_kwargs (model_name : string)
    (n_input_channels n_output_channels : Z) (kwargs : gmap string value)
    (built : list object) :
  In model_name ["cnnbn"; "Unetbn"; "tvfcnResnet50"] ->
  named_network model_name n_input_channels n_output_channels kwargs built
  = named_network model_name n_input_channels n_output_channels ∅ built.
Proof.
  intros [<-|[<-|[<-|[]]]]; reflexivity.
Qed.

Lemma fixed_networks_ignore_kwargs_witness :
  In "Unetbn" ["cnnbn"; "Unetbn"; "tvfcnResnet50"] /\
  named_network "Unetbn" 3 2 (<["filters" := VList [16; 2]]> ∅) []
  = named_network "Unetbn" 3 2 ∅ [].
Proof.
  assert (Hin : In "Unetbn" ["cnnbn"; "Unetbn"; "tvfcnResnet50"])
    by (simpl; auto).
  split; [exact Hin|].
  exact (fixed_networks_ignore_kwargs "Unetbn" 3 2 _ [] Hin).
Defined.

(** X19.  ['simpleResnet'] hands the whole keyword configuration and the
    two channel counts to [FCNResNet], unless the configuration names one
    of the keywords the factory sets itself ([in_channels],
    [out_channels], [block], [padding_mode]): then the call is a
    [TypeError] and nothing is constructed. *)
Theorem simple_resnet_keywords (n_input_channels n_output_channels : Z)
    (kwargs : gmap string value) (built : list object) :
  let fixed := ["in_channels"; "out_channels"; "block"; "padding_mode"] in
  let run := named_network "simpleResnet" n_input_channels n_output_channels
               kwargs built in
  let model := FCNResNet n_input_channels n_output_channels kwargs in
  ((forall k, In k fixed -> kwargs !! k = None) ->
   run = (Ok (model, forward_plain), built ++ [Net model]))
  /\ (forall k, In k fixed -> is_Some (kwargs !! k) ->
      run = (Raise TypeError, built)).
Proof.
  intros fixed run model.
  assert (Hrun : run =
    if no_clash fixed kwargs
    then (Ok (model, forward_plain), built ++ [Net model])
    else (Raise TypeError, built)).
  { subst run fixed model. unfold named_network. simpl String.eqb. cbv iota.
    destruct (no_clash _ kwargs); reflexivity. }
  rewrite Hrun. clear Hrun run. subst fixed model.
  unfold no_clash. cbn [forallb]. split.
  - intros Hfree.
    rewrite !Hfree by (simpl; auto 10). reflexivity.
  - intros k Hin [v Hv].
    destruct Hin as [<-|[<-|[<-|[<-|[]]]]]; rewrite Hv; simpl;
      repeat match goal with
        | |- context [kwargs !! ?key] => destruct (kwargs !! key); simpl
        end; reflexivity.
Qed.

Lemma simple_resnet_keywords_witness :
  let kwargs : gmap string value := <["layers" := VList [4]]> ∅ in
  (forall k, In k ["in_channels"; "out_channels"; "block"; "padding_mode"] ->
     kwargs !! k = None) /\
  named_network "simpleResnet" 3 2 kwargs []
  = (Ok (FCNResNet 3 2 kwargs, forward_plain), [Net (FCNResNet 3 2 kwargs)]).
Proof.
  intros kwargs.
  assert (Hfree : forall k,
            In k ["in_channels"; "out_channels"; "block"; "padding_mode"] ->
            kwargs !! k = None).
  { intros k [<-|[<-|[<-|[<-|[]]]]]; vm_compute; reflexivity. }
  split; [exact Hfree|].
  exact (proj1 (simple_resnet_keywords 3 2 kwargs []) Hfree).
Defined.

(** X20.  ['ConvLSTM'] without [kernel_sizes] raises [KeyError] on that
    key, whatever [filters] is; with a list of kernel sizes and without
    [filters] it raises [KeyError] on [filters].  Nothing is constructed. *)
Theorem convlstm_missing_key (n_input_channels n_output_channels : Z)
    (kwargs : gmap string value) (built : list object) :
  let run := named_network "ConvLSTM" n_input_channels n_output_channels
               kwargs built in
  (kwargs !! "kernel_sizes" = None ->
   run = (Raise (KeyError "kernel_sizes"), built))
  /\ (forall ks, kwargs !! "kernel_sizes" = Some (VList ks) ->
      kwargs !! "filters" = None ->
      run = (Raise (KeyError "filters"), built)).
Proof.
  intros run. subst run. unfold named_network. simpl String.eqb. cbv iota.
  factory_steps. split.
  - intros ->. reflexivity.
  - intros ks -> ->. reflexivity.
Qed.

Lemma convlstm_missing_key_witness :
  let kwargs : gmap string value := <["kernel_sizes" := VList [3; 3]]> ∅ in
  kwargs !! "kernel_sizes" = Some (VList [3; 3]) /\
  kwargs !! "filters" = None /\
  named_network "ConvLSTM" 3 2 kwargs [] = (Raise (KeyError "filters"), []).
Proof.
  intros kwargs.
  assert (Hks : kwargs !! "kernel_sizes" = Some (VList [3; 3]))
    by (vm_compute; reflexivity).
  assert (Hfs : kwargs !! "filters" = None) by (vm_compute; reflexivity).
  split; [exact Hks|]. split; [exact Hfs|].
  exact (proj2 (convlstm_missing_key 3 2 kwargs []) [3; 3] Hks Hfs).
Defined.

(** X21.  ['ConvLSTM'] with an integer for [kernel_sizes], or with a list
    of kernel sizes and an integer for [filters], raises [TypeError]; with
    an empty list of filters it raises [IndexError].  Nothing is
    constructed. *)
Theorem convlstm_ill_formed_lists (n_input_channels n_output_channels : Z)
    (kwargs : gmap string value) (built : list object) :
  let run := named_network "ConvLSTM" n_input_channels n_output_channels
               kwargs built in
  (forall z, kwargs !! "kernel_sizes" = Some (VInt z) ->
   run = (Raise TypeError, built))
  /\ (forall ks z, kwargs !! "kernel_sizes" = Some (VList ks) ->
      kwargs !! "filters" = Some (VInt z) ->
      run = (Raise TypeError, built))
  /\ (forall ks, kwargs !! "kernel_sizes" = Some (VList ks) ->
      kwargs !! "filters" = Some (VList []) ->
      run = (Raise IndexError, built)).
Proof.
  intros run. subst run. unfold named_network. simpl String.eqb. cbv iota.
  factory_steps. repeat split.
  - intros z ->. reflexivity.
  - intros ks z -> ->. reflexivity.
  - intros ks -> ->. reflexivity.
Qed.

Lemma convlstm_ill_formed_lists_witness :
  let kwargs : gmap string value :=
    <["kernel_sizes" := VList [3; 3]]> (<["filters" := VList []]> ∅) in
  kwargs !! "kernel_sizes" = Some (VList [3; 3]) /\
  kwargs !! "filters" = Some (VList []) /\
  named_network "ConvLSTM" 3 2 kwargs [] = (Raise IndexError, []).
Proof.
  intros kwargs.
  assert (Hks : kwargs !! "kernel_sizes" = Some (VList [3; 3]))
    by (vm_compute; reflexivity).
  assert (Hfs : kwargs !! "filters" = Some (VList []))
    by (vm_compute; reflexivity).
  split; [exact Hks|]. split; [exact Hfs|].
  exact (proj2 (proj2 (convlstm_ill_formed_lists 3 2 kwargs []))
           [3; 3] Hks Hfs).
Defined.

(** X22.  A ['ConvLSTM'] call that returns was given two lists, the last
    filter being the output-channel count, and returns a [CircConvLSTM]
    with as many layers as kernel sizes, square kernels, the filters as
    hidden sizes and the wrapper that reads the last hidden state; that
    network is the one object it constructed. *)
Theorem convlstm_return_inv (n_input_channels n_output_channels : Z)
    (kwargs : gmap string value) (built built' : list object)
    (m : network) (f : forward) :
  named_network "ConvLSTM" n_input_channels n_output_channels kwargs built
    = (Ok (m, f), built') ->
  exists ks fs,
    kwargs !! "kernel_sizes" = Some (VList ks)
    /\ kwargs !! "filters" = Some (VList fs)
    /\ last fs = Some n_output_channels
    /\ m = CircConvLSTM n_input_channels (Z.of_nat (length ks))
                        (map (fun i => (i, i)) ks) (VList fs)
    /\ f = forward_last_hidden
    /\ built' = built ++ [Net m].
Proof.
  unfold named_network. simpl String.eqb. cbv iota. factory_steps.
  destruct (kwargs !! "kernel_sizes") as [[z|ks]|]; simpl; try discriminate.
  destruct (kwargs !! "filters") as [[z|fs]|]; simpl; try discriminate.
  destruct (last fs) as [z|] eqn:Hlast; simpl; try discriminate.
  destruct (Z.eqb_spec z n_output_channels) as [->|_]; simpl;
    try discriminate.
  intros [= <- <- <-]. exists ks, fs. auto 10.
Qed.

Lemma convlstm_return_inv_witness :
  let kwargs : gmap string value :=
    <["kernel_sizes" := VList [3; 5]]> (<["filters" := VList [16; 2]]> ∅) in
  let m := CircConvLSTM 4 2 [(3, 3); (5, 5)] (VList [16; 2]) in
  named_network "ConvLSTM" 4 2 kwargs [] = (Ok (m, forward_last_hidden), [Net m])
  /\ exists ks fs,
       kwargs !! "kernel_sizes" = Some (VList ks)
       /\ kwargs !! "filters" = Some (VList fs)
       /\ last fs = Some 2.
Proof.
  intros kwargs m.
  assert (Hrun : named_network "ConvLSTM" 4 2 kwargs []
                 = (Ok (m, forward_last_hidden), [Net m]))
    by (vm_compute; reflexivity).
  split; [exact Hrun|].
  destruct (convlstm_return_inv 4 2 kwargs [] _ m _ Hrun)
    as (ks & fs & Hks & Hfs & Hlast & _).
  exists ks, fs. auto.
Defined.

(** X23.  In a returning call the wrapper reads the ['out'] entry exactly
    for ['tvfcnResnet50'] and the last hidden state exactly for
    ['ConvLSTM']; for the other names it returns the output as it is. *)
Theorem forward_wrapper_by_name (model_name : string)
    (n_input_channels n_output_channels : Z) (kwargs : gmap string value)
    (built built' : list object) (m : network) (f : forward) :
  named_network model_name n_input_channels n_output_channels kwargs built
    = (Ok (m, f), built') ->
  (f = forward_out_entry <-> model_name = "tvfcnResnet50")
  /\ (f = forward_last_hidden <-> model_name = "ConvLSTM")
  /\ (f = forward_plain <->
      In model_name ["cnnbn"; "Unetbn"; "simpleResnet"]).
Proof.
  by_name model_name; factory_steps; factory_cases;
    try discriminate; intros Hrun; injection Hrun as Hm Hf Hbuilt;
    subst m f built';
    repeat split; try discriminate; try reflexivity; simpl; auto 10;
    try (intros [H|[H|[H|[]]]]; discriminate H).
Qed.

Lemma forward_wrapper_by_name_witness :
  let m := fcn_resnet50 (Some (Conv2d 3 64 (3, 3) 1 2))
                        (Some (Conv2d 512 2 (3, 3) 1 2)) in
  named_network "tvfcnResnet50" 3 2 (∅ : gmap string value) []
    = (Ok (m, forward_out_entry),
       [Net (fcn_resnet50 None None); Layer (Conv2d 3 64 (3, 3) 1 2);
        Layer (Conv2d 512 2 (3, 3) 1 2)])
  /\ (forward_out_entry = forward_out_entry <->
      "tvfcnResnet50" = "tvfcnResnet50").
Proof.
  intros m.
  assert (Hrun : named_network "tvfcnResnet50" 3 2 (∅ : gmap string value) []
    = (Ok (m, forward_out_entry),
       [Net (fcn_resnet50 None None); Layer (Conv2d 3 64 (3, 3) 1 2);
        Layer (Conv2d 512 2 (3, 3) 1 2)])) by (vm_compute; reflexivity).
  split; [exact Hrun|].
  exact (proj1 (forward_wrapper_by_name "tvfcnResnet50" 3 2 ∅ [] _ m _ Hrun)).
Defined.

(** X24.  Every network the factory returns is built for the requested
    channel counts: its input channels are [n_input_channels] and its
    output channels [n_output_channels], for each of the five names. *)
Theorem returned_network_has_requested_channels (model_name : string)
    (n_input_channels n_output_channels : Z) (kwargs : gmap string value)
    (built built' : list object) (m : network) (f : forward) :
  named_network model_name n_input_channels n_output_channels kwargs built
    = (Ok (m, f), built') ->
  network_in_channels m = Some n_input_channels
  /\ network_out_channels m = Some n_output_channels.
Proof.
  by_name model_name; factory_steps; try discriminate.
  - intros [= <- <- <-]. split; reflexivity.
  - intros [= <- <- <-]. split; reflexivity.
  - intros [= <- <- <-]. split; reflexivity.
  - factory_cases; try discriminate;
      intros Hrun; injection Hrun as Hm Hf Hbuilt; subst m;
      split; reflexivity.
  - destruct (kwargs !! "kernel_sizes") as [[z|ks]|]; simpl;
      try discriminate.
    destruct (kwargs !! "filters") as [[z|fs]|]; simpl; try discriminate.
    destruct (last fs) as [z|] eqn:Hlast; simpl; try discriminate.
    destruct (Z.eqb_spec z n_output_channels) as [->|_]; simpl;
      try discriminate.
    intros [= <- <- <-]. split; [reflexivity | exact Hlast].
Qed.

Lemma returned_network_has_requested_channels_witness :
  let m := SimpleCNN [64; 64; 64; 64; 2] [5; 5; 5; 5; 5] 3 in
  named_network "cnnbn" 3 2 (∅ : gmap string value) []
    = (Ok (m, forward_plain), [Net m])
  /\ network_in_channels m = Some 3
  /\ network_out_channels m = Some 2.
Proof.
  intros m.
  assert (Hrun : named_network "cnnbn" 3 2 (∅ : gmap string value) []
                 = (Ok (m, forward_plain), [Net m]))
    by (vm_compute; reflexivity).
  split; [exact Hrun|].
  exact (returned_network_has_requested_channels "cnnbn" 3 2 ∅ [] _ m _ Hrun).
Defined.

(** ** The device initializer *)

(** X25.  [init_torch_device] never raises.  It returns the CUDA device
    exactly when CUDA is available, leaves the default tensor type at the
    float tensor of the device it returns, whatever the default was
    before, and prints one line; a second call returns the same device
    and leaves the same default. *)
Theorem init_torch_device_sets_default (t : torch) :
  exists d,
    fst (init_torch_device t) = Ok d
    /\ (d = cuda <-> cuda_is_available t = true)
    /\ default_tensor_type (snd (init_torch_device t)) = float_tensor_of d
    /\ length (torch_stdout (snd (init_torch_device t)))
       = S (length (torch_stdout t))
    /\ fst (init_torch_device (snd (init_torch_device t))) = Ok d
    /\ default_tensor_type
         (snd (init_torch_device (snd (init_torch_device t))))
       = float_tensor_of d.
Proof.
  unfold init_torch_device, bind, get, ret, torch_print,
    set_default_tensor_type, modify.
  destruct t as [[|] ty out]; simpl.
  - exists cuda. rewrite length_app, Nat.add_1_r. simpl.
    repeat split; auto.
  - exists cpu. rewrite length_app, Nat.add_1_r. simpl.
    repeat split; auto; discriminate.
Qed.
